(** * The integration-test script of The Littlest JupyterHub, in Rocq

    A shallow embedding of [.github/integration-test.py]: the script that
    drives a container runtime (docker or podman) to build an image, start a
    systemd container, wait until it answers, and run the installer and the
    test suite in it.

    The script is a sequence of interactions with its host (the search path,
    child processes, the wall clock), so it is embedded in a small monad that
    threads the host's state, collects the interactions as a trace, and
    carries Python's exceptions. *)

From Stdlib Require Import List String Ascii ZArith NArith Bool Lia.
From Stdlib.Strings Require Import Byte.
Import ListNotations.
Open Scope string_scope.
Open Scope Z_scope.

Set Implicit Arguments.

(** ** Python values *)

(** A Python [str] is kept as the string of its UTF-8 bytes, [bytes] as a
    list of bytes. *)
Definition bytes := list byte.

(** Truthiness of a [str]: every string but the empty one. *)
Definition truthy (s : string) : bool :=
  match s with
  | EmptyString => false
  | String _ _ => true
  end.

(** Truthiness of a value that is [None] or a [str]. *)
Definition truthy_opt (o : option string) : bool :=
  match o with
  | None => false
  | Some s => truthy s
  end.

(** Truthiness of a value that is [None] or a list. *)
Definition truthy_list (A : Type) (o : option (list A)) : bool :=
  match o with
  | None | Some [] => false
  | Some (_ :: _) => true
  end.

(** [sep.join(parts)] *)
Definition join (sep : string) (parts : list string) : string :=
  String.concat sep parts.

(** [s.endswith("/")] *)
Fixpoint ends_with_slash (s : string) : bool :=
  match s with
  | EmptyString => false
  | String c EmptyString => Ascii.eqb c "/"
  | String _ rest => ends_with_slash rest
  end.

(** [s.startswith("/")] *)
Definition starts_with_slash (s : string) : bool :=
  match s with
  | String c _ => Ascii.eqb c "/"
  | EmptyString => false
  end.

(** [os.path.join(a, b)] of posixpath, for two components. *)
Definition os_path_join (a b : string) : string :=
  if starts_with_slash b then b
  else if negb (truthy a) || ends_with_slash a then a ++ b
  else a ++ "/" ++ b.

(** Strict UTF-8 validation, one byte at a time: [need] continuation bytes
    are still expected, the next of them within [lo..hi]. *)
Fixpoint utf8_ok (need : nat) (lo hi : N) (bs : bytes) : bool :=
  match bs with
  | [] => Nat.eqb need 0
  | b :: rest =>
      let n := Byte.to_N b in
      match need with
      | O =>
          if (n <? 0x80)%N then utf8_ok 0 0x80 0xBF rest
          else if ((0xC2 <=? n) && (n <=? 0xDF))%N then utf8_ok 1 0x80 0xBF rest
          else if (n =? 0xE0)%N then utf8_ok 2 0xA0 0xBF rest
          else if (n =? 0xED)%N then utf8_ok 2 0x80 0x9F rest
          else if ((0xE1 <=? n) && (n <=? 0xEF))%N then utf8_ok 2 0x80 0xBF rest
          else if (n =? 0xF0)%N then utf8_ok 3 0x90 0xBF rest
          else if ((0xF1 <=? n) && (n <=? 0xF3))%N then utf8_ok 3 0x80 0xBF rest
          else if (n =? 0xF4)%N then utf8_ok 3 0x80 0x8F rest
          else false
      | S k => ((lo <=? n) && (n <=? hi))%N && utf8_ok k 0x80 0xBF rest
      end
  end.

(** [out.decode()]: [None] stands for [UnicodeDecodeError]. *)
Definition decode (out : bytes) : option string :=
  if utf8_ok 0 0x80 0xBF out then Some (string_of_list_byte out) else None.

(** ** Processes, exceptions and the trace *)

(** The keyword arguments the script passes down to [subprocess]:
    [stderr=subprocess.STDOUT] and [check=True]. *)
Record kwargs := { kw_stderr_STDOUT : bool; kw_check : bool }.

Definition no_kwargs : kwargs := {| kw_stderr_STDOUT := false; kw_check := false |}.
Definition stderr_STDOUT : kwargs := {| kw_stderr_STDOUT := true; kw_check := false |}.
Definition check_True : kwargs := {| kw_stderr_STDOUT := false; kw_check := true |}.

(** What starting a child process comes to: it exits with a return code and
    the bytes it wrote, or it cannot be started ([OSError]). *)
Inductive proc :=
| Exited (returncode : Z) (output : bytes)
| NotStarted (reason : string).

(** The exceptions the script can meet. *)
Inductive exn :=
| RuntimeError (msg : string)
| CalledProcessError (returncode : Z) (cmd : list string) (output : option bytes)
| OSError (msg : string)
| UnicodeDecodeError (input : bytes).

Definition is_CalledProcessError (e : exn) : bool :=
  match e with
  | CalledProcessError _ _ _ => true
  | _ => false
  end.

(** What [print] is given. *)
Inductive printed :=
| PStr (s : string)
| PRunning (cmd : list string) (kw : kwargs)
| PExn (e : exn).

(** One interaction with the host. *)
Inductive event :=
| EvWhich (name : string)
| EvSpawn (cmd : list string) (capture : bool) (kw : kwargs)
| EvPrint (p : printed)
| EvTime
| EvSleep (secs : Z).

(** The host: the search path, child processes and the wall clock. The clock
    is read in milliseconds. *)
Class Host (W : Type) := {
  which : string -> W -> option string;
  spawn : bool -> kwargs -> list string -> W -> proc * W;
  time_ : W -> Z;
  sleep : Z -> W -> W;
  (** [os.path.abspath(os.path.join(os.path.dirname(__file__), os.pardir))] *)
  source_path : string
}.

(** ** The monad *)

Inductive outcome (A : Type) :=
| Ret (a : A)
| Raise (e : exn)
| OutOfFuel.

Arguments Raise {A} e.
Arguments OutOfFuel {A}.

(** A computation runs from a host state to an outcome, the host state it
    leaves and the events it issued, oldest first. *)
Definition M (W A : Type) : Type := W -> outcome A * W * list event.

Definition ret {W A : Type} (a : A) : M W A := fun w => (Ret a, w, []).

Definition raise {W A : Type} (e : exn) : M W A := fun w => (Raise e, w, []).

Definition diverge {W A : Type} : M W A := fun w => (OutOfFuel, w, []).

Definition bind {W A B : Type} (m : M W A) (f : A -> M W B) : M W B :=
  fun w =>
    match m w with
    | (Ret a, w1, t1) => let '(r, w2, t2) := f a w1 in (r, w2, (t1 ++ t2)%list)
    | (Raise e, w1, t1) => (Raise e, w1, t1)
    | (OutOfFuel, w1, t1) => (OutOfFuel, w1, t1)
    end.

(** [try: m  except subprocess.CalledProcessError as e: h e] *)
Definition try_except_CalledProcessError {W A : Type}
    (m : M W A) (h : exn -> M W A) : M W A :=
  fun w =>
    match m w with
    | (Raise e, w1, t1) =>
        if is_CalledProcessError e
        then let '(r, w2, t2) := h e w1 in (r, w2, (t1 ++ t2)%list)
        else (Raise e, w1, t1)
    | other => other
    end.

Declare Scope py_scope.
Delimit Scope py_scope with py.
Notation "x <- m ;; k" := (bind m (fun x => k))
  (at level 100, m at next level, right associativity) : py_scope.
Notation "m ;; k" := (bind m (fun _ => k))
  (at level 100, right associativity) : py_scope.
Open Scope py_scope.

(** The outcome, final host state and trace of a run. *)
Definition result {A W : Type} (x : outcome A * W * list event) : outcome A := fst (fst x).
Definition final {A W : Type} (x : outcome A * W * list event) : W := snd (fst x).
Definition trace {A W : Type} (x : outcome A * W * list event) : list event := snd x.

(** The child processes a trace started, as their command lines. *)
Fixpoint spawned (t : list event) : list (list string) :=
  match t with
  | [] => []
  | EvSpawn cmd _ _ :: rest => cmd :: spawned rest
  | _ :: rest => spawned rest
  end.

(** The search-path probes of a trace. *)
Fixpoint probes (t : list event) : list string :=
  match t with
  | [] => []
  | EvWhich name :: rest => name :: probes rest
  | _ :: rest => probes rest
  end.

Section Script.

Context {W : Type} {host : Host W}.

(** *** Host primitives *)

Definition shutil_which (name : string) : M W (option string) :=
  fun w => (Ret (which name w), w, [EvWhich name]).

Definition print (p : printed) : M W unit :=
  fun w => (Ret tt, w, [EvPrint p]).

Definition time_time : M W Z :=
  fun w => (Ret (time_ w), w, [EvTime]).

Definition time_sleep (secs : Z) : M W unit :=
  fun w => (Ret tt, sleep secs w, [EvSleep secs]).

Definition popen (capture : bool) (kw : kwargs) (cmd : list string) : M W proc :=
  fun w => let '(p, w') := spawn capture kw cmd w in (Ret p, w', [EvSpawn cmd capture kw]).

(** [subprocess.check_output(cmd, **kwargs)] *)
Definition subprocess_check_output (cmd : list string) (kw : kwargs) : M W bytes :=
  p <- popen true kw cmd ;;
  match p with
  | Exited 0 out => ret out
  | Exited code out => raise (CalledProcessError code cmd (Some out))
  | NotStarted reason => raise (OSError reason)
  end.

(** [subprocess.run(cmd, **kwargs)]; the value is the return code of the
    [CompletedProcess]. *)
Definition subprocess_run (cmd : list string) (kw : kwargs) : M W Z :=
  p <- popen false kw cmd ;;
  match p with
  | Exited code _ =>
      if kw_check kw && negb (code =? 0)
      then raise (CalledProcessError code cmd None)
      else ret code
  | NotStarted reason => raise (OSError reason)
  end.

(** [out.decode()] *)
Definition bytes_decode (out : bytes) : M W string :=
  match decode out with
  | Some s => ret s
  | None => raise (UnicodeDecodeError out)
  end.

(** *** The script *)

Definition runtimes : list string := ["docker"; "podman"].

(** The [for runtime in runtimes] loop of [container_runtime]: the first
    name [which] finds, if any. *)
Fixpoint container_runtime_for (rs : list string) : M W (option string) :=
  match rs with
  | [] => ret None
  | runtime :: rest =>
      found <- shutil_which runtime ;;
      if truthy_opt found then ret (Some runtime)
      else container_runtime_for rest
  end.

Definition container_runtime : M W string :=
  r <- container_runtime_for runtimes ;;
  match r with
  | Some runtime => ret runtime
  | None => raise (RuntimeError ("No container runtime found, tried: " ++ join " " runtimes))
  end.

Definition container_check_output (args : list string) (kw : kwargs) : M W bytes :=
  rt <- container_runtime ;;
  let cmd := ([rt] ++ args)%list in
  print (PRunning cmd kw) ;;
  subprocess_check_output cmd kw.

Definition container_run (args : list string) (kw : kwargs) : M W Z :=
  rt <- container_runtime ;;
  let cmd := ([rt] ++ args)%list in
  print (PRunning cmd kw) ;;
  subprocess_run cmd kw.

Definition build_systemd_image (image_name source : string)
    (build_args : option (list string)) : M W unit :=
  let cmd := ["build"; "-t=" ++ image_name; source] in
  let cmd :=
    if truthy_list build_args
    then (cmd ++ map (fun ba => ("--build-arg=" ++ ba)%string)
                     (match build_args with Some l => l | None => [] end))%list
    else cmd in
  container_check_output cmd no_kwargs ;;
  ret tt.

(** The [try] block of one poll of [check_container_ready]; [true] is the
    [return] of the function. *)
Definition poll_try (container_name : string) : M W bool :=
  out <- container_check_output ["exec"; "-t"; container_name; "id"] no_kwargs ;;
  s <- bytes_decode out ;;
  print (PStr s) ;;
  ret true.

(** One of the two diagnostic reads of the [except] block. *)
Definition poll_diagnose (args : list string) : M W unit :=
  try_except_CalledProcessError
    (out <- container_check_output args no_kwargs ;;
     s <- bytes_decode out ;;
     print (PStr s))
    (fun e => print (PExn e)).

(** The [except] block of one poll; [false] means the loop goes round
    again. The clock is read in milliseconds, the timeout is in seconds. *)
Definition poll_except (container_name : string) (timeout now : Z) (e : exn) : M W bool :=
  print (PExn e) ;;
  poll_diagnose ["inspect"; container_name] ;;
  poll_diagnose ["logs"; container_name] ;;
  t <- time_time ;;
  if t - now >? 1000 * timeout
  then raise (RuntimeError ("Container " ++ container_name ++ " hasn't started"))
  else time_sleep 5 ;; ret false.

(** The [while True] loop, at most [fuel] times round. *)
Fixpoint check_container_ready_loop (fuel : nat) (container_name : string)
    (timeout now : Z) : M W unit :=
  match fuel with
  | O => diverge
  | S fuel' =>
      returned <- try_except_CalledProcessError
                    (poll_try container_name)
                    (poll_except container_name timeout now) ;;
      if (returned : bool) then ret tt
      else check_container_ready_loop fuel' container_name timeout now
  end.

Definition check_container_ready (fuel : nat) (container_name : string)
    (timeout : Z) : M W unit :=
  now <- time_time ;;
  check_container_ready_loop fuel container_name timeout now.

Definition run_systemd_image (image_name container_name : string)
    (bootstrap_pip_spec : option string) : M W unit :=
  let cmd := ["run"; "--privileged"; "--detach";
              "--name=" ++ container_name; "--memory=900m"] in
  let cmd :=
    if truthy_opt bootstrap_pip_spec
    then (cmd ++ ["-e"]
              ++ [("TLJH_BOOTSTRAP_PIP_SPEC="
                     ++ match bootstrap_pip_spec with Some s => s | None => "" end)%string])%list
    else cmd in
  let cmd := (cmd ++ [image_name])%list in
  container_check_output cmd no_kwargs ;;
  ret tt.

(** [true] is the early [return] of the [except] clause. *)
Definition stop_container (container_name : string) : M W unit :=
  missing <- try_except_CalledProcessError
               (container_check_output ["inspect"; container_name] stderr_STDOUT ;;
                ret false)
               (fun _ => ret true) ;;
  if (missing : bool) then ret tt
  else container_check_output ["rm"; "-f"; container_name] no_kwargs ;; ret tt.

Definition run_container_command (container_name cmd : string) : M W unit :=
  container_run ["exec"; "-t"; container_name; "/bin/bash"; "-c"; cmd] check_True ;;
  ret tt.

Definition copy_to_container (container_name src_path dest_path : string) : M W unit :=
  container_check_output ["cp"; src_path; container_name ++ ":" ++ dest_path] no_kwargs ;;
  ret tt.

(** [os.path.join("/srv/src/integration-tests/", f) for f in test_files],
    joined by spaces. *)
Definition suite_files (test_files : list string) : string :=
  join " " (map (os_path_join "/srv/src/integration-tests/") test_files).

Definition run_test (fuel : nat) (image_name test_name : string)
    (bootstrap_pip_spec : option string) (test_files : list string)
    (upgrade_from installer_args : string) : M W unit :=
  stop_container test_name ;;
  run_systemd_image image_name test_name bootstrap_pip_spec ;;
  check_container_ready fuel test_name 60 ;;
  copy_to_container test_name (os_path_join source_path "bootstrap/.") "/srv/src" ;;
  copy_to_container test_name (os_path_join source_path "integration-tests/") "/srv/src" ;;
  print (PStr ("--- Start of logs from the container: " ++ test_name)) ;;
  out <- container_check_output ["logs"; test_name] no_kwargs ;;
  s <- bytes_decode out ;;
  print (PStr s) ;;
  print (PStr ("--- End of logs from the container: " ++ test_name)) ;;
  (if truthy upgrade_from
   then run_container_command test_name
          ("curl -L https://tljh.jupyter.org/bootstrap.py | python3 - --version="
             ++ upgrade_from)
   else ret tt) ;;
  run_container_command test_name ("python3 /srv/src/bootstrap.py " ++ installer_args) ;;
  run_container_command test_name
    "/opt/tljh/hub/bin/python3 -m pip install -r /srv/src/integration-tests/requirements.txt" ;;
  run_container_command test_name "/opt/tljh/hub/bin/python3 -m pip freeze" ;;
  run_container_command test_name
    ("/opt/tljh/hub/bin/python3 -m pytest --verbose --maxfail=2 --color=yes --durations=10 --capture=no "
       ++ suite_files test_files).

Definition show_logs (container_name : string) : M W unit :=
  run_container_command container_name "journalctl --no-pager" ;;
  run_container_command container_name "systemctl --no-pager status jupyterhub traefik".

End Script.

(** ** The command line

    [main] reads the namespace that [argparse] returns and calls one of the
    operations. A namespace holds the attribute [action] and the
    destinations that the chosen subparser declares; reading any other
    attribute raises [AttributeError]. *)

Inductive value :=
| VNone
| VStr (s : string)
| VList (l : list string).

Definition namespace := list (string * value).

(** [args.name]: [None] stands for [AttributeError]. *)
Fixpoint getattr (args : namespace) (name : string) : option value :=
  match args with
  | [] => None
  | (n, v) :: rest => if (n =? name)%string then Some v else getattr rest name
  end.

(** The command lines the parser accepts, defaults filled in: no
    subcommand at all, or one of the seven with its arguments.
    [--build-arg] may be repeated or left out; [--bootstrap-pip-spec] may be
    given without a value; [test_files] has at least one element. *)
Inductive cmdline :=
| NoSubcommand
| BuildImage (build_arg : list string)
| StopContainer (container_name : string)
| StartContainer (container_name : string)
| RunCommand (container_name command : string)
| Copy (container_name src dest : string)
| RunTest (installer_args upgrade_from : string) (bootstrap_pip_spec : option string)
          (test_name test_file : string) (more_test_files : list string)
| ShowLogs (container_name : string).

(** The namespace [parse_args] returns for a command line. *)
Definition namespace_of (c : cmdline) : namespace :=
  match c with
  | NoSubcommand => [("action", VNone)]
  | BuildImage build_arg =>
      [("action", VStr "build-image");
       ("build_args", match build_arg with [] => VNone | _ => VList build_arg end)]
  | StopContainer container_name =>
      [("action", VStr "stop-container"); ("container_name", VStr container_name)]
  | StartContainer container_name =>
      [("action", VStr "start-container"); ("container_name", VStr container_name)]
  | RunCommand container_name command =>
      [("action", VStr "run"); ("container_name", VStr container_name);
       ("command", VStr command)]
  | Copy container_name src dest =>
      [("action", VStr "copy"); ("container_name", VStr container_name);
       ("src", VStr src); ("dest", VStr dest)]
  | RunTest installer_args upgrade_from bootstrap_pip_spec test_name test_file more =>
      [("action", VStr "run-test");
       ("installer_args", VStr installer_args);
       ("upgrade_from", VStr upgrade_from);
       ("bootstrap_pip_spec",
        match bootstrap_pip_spec with Some s => VStr s | None => VNone end);
       ("test_name", VStr test_name);
       ("test_files", VList (test_file :: more))]
  | ShowLogs container_name =>
      [("action", VStr "show-logs"); ("container_name", VStr container_name)]
  end.

(** What [main] comes to before anything is run: a call of an operation, an
    [AttributeError] raised while the call's arguments are read, or an
    argument of a type the operation is not written for (which no namespace
    of the parser leads to). *)
Inductive dispatched (W : Type) :=
| Calls (m : M W unit)
| AttributeError (name : string)
| IllTyped.

Arguments AttributeError {W} name.
Arguments IllTyped {W}.

(** [action == name] *)
Definition is_action (action : value) (name : string) : bool :=
  match action with
  | VStr s => (s =? name)%string
  | _ => false
  end.

Definition as_str (v : value) : option string :=
  match v with VStr s => Some s | _ => None end.

Definition as_opt_str (v : value) : option (option string) :=
  match v with VStr s => Some (Some s) | VNone => Some None | VList _ => None end.

Definition as_list (v : value) : option (list string) :=
  match v with VList l => Some l | _ => None end.

Definition as_opt_list (v : value) : option (option (list string)) :=
  match v with VList l => Some (Some l) | VNone => Some None | VStr _ => None end.

Section Main.

Context {W : Type} {host : Host W}.

(** Reading [args.name] and going on with its value. *)
Definition attr (args : namespace) (name : string) (k : value -> dispatched W)
    : dispatched W :=
  match getattr args name with
  | Some v => k v
  | None => AttributeError name
  end.

Definition main (fuel : nat) (args : namespace) : dispatched W :=
  let image_name := "tljh-systemd" in
  attr args "action" (fun action =>
  if is_action action "run-test" then
    attr args "test_name" (fun test_name =>
    attr args "bootstrap_pip_spec" (fun bootstrap_pip_spec =>
    attr args "test_files" (fun test_files =>
    attr args "upgrade_from" (fun upgrade_from =>
    attr args "installer_args" (fun installer_args =>
    match as_str test_name, as_opt_str bootstrap_pip_spec, as_list test_files,
          as_str upgrade_from, as_str installer_args with
    | Some n, Some b, Some fs, Some u, Some i =>
        Calls (run_test fuel image_name n b fs u i)
    | _, _, _, _, _ => IllTyped
    end)))))
  else if is_action action "show-logs" then
    attr args "container_name" (fun container_name =>
    match as_str container_name with
    | Some n => Calls (show_logs n)
    | None => IllTyped
    end)
  else if is_action action "run" then
    attr args "container_name" (fun container_name =>
    attr args "command" (fun command =>
    match as_str container_name, as_str command with
    | Some n, Some c => Calls (run_container_command n c)
    | _, _ => IllTyped
    end))
  else if is_action action "copy" then
    attr args "container_name" (fun container_name =>
    attr args "src" (fun src =>
    attr args "dest" (fun dest =>
    match as_str container_name, as_str src, as_str dest with
    | Some n, Some s, Some d => Calls (copy_to_container n s d)
    | _, _, _ => IllTyped
    end)))
  else if is_action action "start-container" then
    attr args "container_name" (fun container_name =>
    attr args "bootstrap_pip_spec" (fun bootstrap_pip_spec =>
    match as_str container_name, as_opt_str bootstrap_pip_spec with
    | Some n, Some b => Calls (run_systemd_image image_name n b)
    | _, _ => IllTyped
    end))
  else if is_action action "stop-container" then
    attr args "container_name" (fun container_name =>
    match as_str container_name with
    | Some n => Calls (stop_container n)
    | None => IllTyped
    end)
  else if is_action action "build-image" then
    attr args "build_args" (fun build_args =>
    match as_opt_list build_args with
    | Some l => Calls (build_systemd_image image_name "integration-tests" l)
    | None => IllTyped
    end)
  else Calls (ret tt)).

End Main.

(** ** A simulated host

    A small container engine to run the script on: the runtimes on the
    search path, whether the engine's daemon answers, the containers that
    exist, the clock reading from which a container's init answers, and how
    long every child process takes. *)

Record sim := {
  on_path : list string;
  daemon_up : bool;
  containers : list string;
  boots_at : Z;
  logs_ok : bool;
  clock : Z;
  cmd_ms : Z
}.

Definition mem (x : string) (l : list string) : bool := existsb (String.eqb x) l.

Definition text (s : string) : bytes := list_byte_of_string s.

Definition sim_set (w : sim) (cs : list string) : sim :=
  {| on_path := on_path w; daemon_up := daemon_up w; containers := cs;
     boots_at := boots_at w; logs_ok := logs_ok w;
     clock := clock w + cmd_ms w; cmd_ms := cmd_ms w |}.

Definition sim_spawn (capture : bool) (kw : kwargs) (cmd : list string) (w : sim)
    : proc * sim :=
  let sub := nth 1 cmd "" in
  let w' := sim_set w (containers w) in
  if negb (mem (nth 0 cmd "") (on_path w)) then (NotStarted "No such file or directory", w)
  else if negb (daemon_up w) then (Exited 1 (text "Cannot connect to the Docker daemon"), w')
  else if (sub =? "inspect")%string then
    if mem (nth 2 cmd "") (containers w) then (Exited 0 (text "[{}]"), w')
    else (Exited 1 (text "Error: No such object"), w')
  else if (sub =? "rm")%string then
    (Exited 0 [], sim_set w (filter (fun c => negb (c =? nth 3 cmd "")%string) (containers w)))
  else if (sub =? "run")%string then
    let name := substring 7 (String.length (nth 4 cmd "")) (nth 4 cmd "") in
    if mem name (containers w) then (Exited 125 (text "Conflict"), w')
    else (Exited 0 (text "4f1c"), sim_set w (name :: containers w))
  else if (sub =? "exec")%string then
    if mem (nth 3 cmd "") (containers w) && (boots_at w <=? clock w)%Z
    then (Exited 0 (text "uid=0(root) gid=0(root) groups=0(root)"), w')
    else (Exited 1 (text "Error: container is not running"), w')
  else if (sub =? "logs")%string then
    if mem (nth 2 cmd "") (containers w) && logs_ok w
    then (Exited 0 (text "systemd 249 running"), w')
    else (Exited 1 (text "Error: cannot read the logs"), w')
  else if (sub =? "cp")%string then (Exited 0 [], w')
  else if (sub =? "build")%string then (Exited 0 [], w')
  else (Exited 125 (text "unknown command"), w').

#[export] Instance sim_host : Host sim := {|
  which := fun name w => if mem name (on_path w) then Some ("/usr/bin/" ++ name) else None;
  spawn := sim_spawn;
  time_ := clock;
  sleep := fun secs w =>
    {| on_path := on_path w; daemon_up := daemon_up w; containers := containers w;
       boots_at := boots_at w; logs_ok := logs_ok w;
       clock := clock w + 1000 * secs; cmd_ms := cmd_ms w |};
  source_path := "/home/runner/work/the-littlest-jupyterhub"
|}.

(** A fresh host: docker installed and up, no container, every command
    takes 10 ms, and a container's init answers from clock reading
    [boots]. *)
Definition fresh (boots : Z) : sim :=
  {| on_path := ["docker"]; daemon_up := true; containers := [];
     boots_at := boots; logs_ok := true; clock := 0; cmd_ms := 10 |}.

(** A host on which the named containers exist. *)
Definition hosting (names : list string) (boots : Z) : sim :=
  {| on_path := ["docker"]; daemon_up := true; containers := names;
     boots_at := boots; logs_ok := true; clock := 0; cmd_ms := 10 |}.

(** The same with the engine's daemon not answering. *)
Definition unreachable (names : list string) : sim :=
  {| on_path := ["docker"]; daemon_up := false; containers := names;
     boots_at := 0; logs_ok := true; clock := 0; cmd_ms := 10 |}.

(** A fresh host whose containers boot at once but whose logs cannot be
    read. *)
Definition unreadable_logs : sim :=
  {| on_path := ["docker"]; daemon_up := true; containers := [];
     boots_at := 0; logs_ok := false; clock := 0; cmd_ms := 10 |}.

(** A host with no runtime on the search path. *)
Definition bare : sim :=
  {| on_path := []; daemon_up := true; containers := [];
     boots_at := 0; logs_ok := true; clock := 0; cmd_ms := 10 |}.

(** A second host, with podman only, on which no container ever answers:
    its state is the clock, every child exits with code 1 after 1 ms, and
    a sleep lasts what it is asked. *)
#[export] Instance dead_host : Host Z := {|
  which := fun name _ => if (name =? "podman")%string then Some "/usr/bin/podman" else None;
  spawn := fun _ _ _ t => (Exited 1 (text "Error: container is not running"), t + 1);
  time_ := fun t => t;
  sleep := fun secs t => t + 1000 * secs;
  source_path := "/src"
|}.

(** ** Vocabulary of the statements *)

(** The error of [container_runtime] when neither runtime is found. *)
Definition no_runtime : exn :=
  RuntimeError "No container runtime found, tried: docker podman".

(** The error of [check_container_ready] when the timeout has passed. *)
Definition not_ready (container_name : string) : exn :=
  RuntimeError ("Container " ++ container_name ++ " hasn't started").

(** What [subprocess.check_output] makes of a finished child. *)
Definition checked (cmd : list string) (p : proc) : outcome bytes :=
  match p with
  | Exited 0 out => Ret out
  | Exited code out => Raise (CalledProcessError code cmd (Some out))
  | NotStarted reason => Raise (OSError reason)
  end.

(** The arguments of the liveness command of the readiness probe, and the
    number of liveness commands a trace started. *)
Definition liveness_args (container_name : string) : list string :=
  ["exec"; "-t"; container_name; "id"].

Definition is_liveness (container_name : string) (cmd : list string) : bool :=
  match tl cmd with
  | [a; b; c; d] =>
      ((a =? "exec") && (b =? "-t") && (c =? container_name) && (d =? "id"))%string
  | _ => false
  end.

Definition attempts (container_name : string) (t : list event) : nat :=
  List.length (filter (is_liveness container_name) (spawned t)).

(** The runtime subcommand of a command line, and whether it takes a
    container down. *)
Definition subcommand (cmd : list string) : string := nth 1 cmd "".

Definition teardown (cmd : list string) : bool :=
  ((subcommand cmd =? "rm") || (subcommand cmd =? "stop")
   || (subcommand cmd =? "kill"))%string.

(** [ceil(t / 5)] for a timeout of [t] seconds. *)
Definition ceil_div5 (t : Z) : nat := Z.to_nat ((t + 4) / 5).

(** The environment flags of [run]: what a non-empty bootstrap pip spec
    adds to the command line. *)
Definition env_flags (bootstrap_pip_spec : option string) : list string :=
  match bootstrap_pip_spec with
  | Some (String c s) => ["-e"; "TLJH_BOOTSTRAP_PIP_SPEC=" ++ String c s]
  | _ => []
  end.

(** The sleeps of a trace. *)
Fixpoint slept (t : list event) : list Z :=
  match t with
  | [] => []
  | EvSleep secs :: rest => secs :: slept rest
  | _ :: rest => slept rest
  end.

(** A property of a run: of its outcome, final state and trace. *)
Definition post {A W : Type} (x : outcome A * W * list event)
    (Q : outcome A -> W -> list event -> Prop) : Prop :=
  Q (result x) (final x) (trace x).

(** The specification's reading of a test run, to compare [run_test] with:
    ten numbered steps. *)
Inductive step :=
| StopStep | RunStep | ReadyStep | CopyStep | LogsStep
| UpgradeStep | InstallStep | DepsStep | FreezeStep | SuiteStep.

(** The steps of one run, in order: the upgrade step is there when
    [upgrade_from] is not empty. *)
Definition plan (upgrade_from : string) : list step :=
  ([StopStep; RunStep; ReadyStep; CopyStep; LogsStep]
     ++ (if truthy upgrade_from then [UpgradeStep] else [])
     ++ [InstallStep; DepsStep; FreezeStep; SuiteStep])%list.

Section Steps.

Context {W : Type} {host : Host W}.

Variables (fuel : nat) (image_name test_name : string)
          (bootstrap_pip_spec : option string) (test_files : list string)
          (upgrade_from installer_args : string).

(** What each numbered step of the specification stands for, in the
    script's operations. *)
Definition step_action (st : step) : M W unit :=
  match st with
  | StopStep => stop_container test_name
  | RunStep => run_systemd_image image_name test_name bootstrap_pip_spec
  | ReadyStep => check_container_ready fuel test_name 60
  | CopyStep =>
      copy_to_container test_name (os_path_join source_path "bootstrap/.") "/srv/src" ;;
      copy_to_container test_name (os_path_join source_path "integration-tests/") "/srv/src"
  | LogsStep =>
      print (PStr ("--- Start of logs from the container: " ++ test_name)) ;;
      out <- container_check_output ["logs"; test_name] no_kwargs ;;
      s <- bytes_decode out ;;
      print (PStr s) ;;
      print (PStr ("--- End of logs from the container: " ++ test_name))
  | UpgradeStep =>
      run_container_command test_name
        ("curl -L https://tljh.jupyter.org/bootstrap.py | python3 - --version="
           ++ upgrade_from)
  | InstallStep =>
      run_container_command test_name ("python3 /srv/src/bootstrap.py " ++ installer_args)
  | DepsStep =>
      run_container_command test_name
        "/opt/tljh/hub/bin/python3 -m pip install -r /srv/src/integration-tests/requirements.txt"
  | FreezeStep =>
      run_container_command test_name "/opt/tljh/hub/bin/python3 -m pip freeze"
  | SuiteStep =>
      run_container_command test_name
        ("/opt/tljh/hub/bin/python3 -m pytest --verbose --maxfail=2 --color=yes --durations=10 --capture=no "
           ++ suite_files test_files)
  end.

End Steps.

(** Steps run one after the other; the first that does not return ends
    the run. *)
Fixpoint run_steps {W : Type} (act : step -> M W unit) (l : list step) : M W unit :=
  match l with
  | [] => ret tt
  | st :: rest => act st ;; run_steps act rest
  end.


(** The diagnostic reads of the readiness probe never raise on this host:
    each returns, or fails with a nonzero exit that the probe swallows. *)
Definition diagnostics_return {W : Type} {host : Host W} (container_name : string) : Prop :=
  forall w : W,
    result (poll_diagnose ["inspect"; container_name] w) = Ret tt /\
    result (poll_diagnose ["logs"; container_name] w) = Ret tt.

(** What [subprocess.run] makes of a finished child. *)
Definition completed (cmd : list string) (kw : kwargs) (p : proc) : outcome Z :=
  match p with
  | Exited code _ =>
      if kw_check kw && negb (code =? 0)
      then Raise (CalledProcessError code cmd None)
      else Ret code
  | NotStarted reason => Raise (OSError reason)
  end.

Definition is_spawn (ev : event) : bool :=
  match ev with
  | EvSpawn _ _ _ => true
  | _ => false
  end.

(** A trace in which every child process is started right after the
    search path was probed up to its runtime and its command line was
    printed. *)
Inductive orderly : list event -> Prop :=
| orderly_nil : orderly []
| orderly_docker args capture kw rest :
    orderly rest ->
    orderly (EvWhich "docker"
               :: EvPrint (PRunning ("docker" :: args) kw)
               :: EvSpawn ("docker" :: args) capture kw :: rest)
| orderly_podman args capture kw rest :
    orderly rest ->
    orderly (EvWhich "docker" :: EvWhich "podman"
               :: EvPrint (PRunning ("podman" :: args) kw)
               :: EvSpawn ("podman" :: args) capture kw :: rest)
| orderly_other ev rest :
    is_spawn ev = false -> orderly rest -> orderly (ev :: rest).

(** The commands of the readiness probe: the liveness command and the two
    diagnostic reads of the container. *)
Definition probe_command (container_name : string) (cmd : list string) : Prop :=
  tl cmd = liveness_args container_name \/
  tl cmd = ["inspect"; container_name] \/
  tl cmd = ["logs"; container_name].

(** The commands a trace started, each without the name of the runtime
    it was given to. *)
Definition issued (t : list event) : list (list string) :=
  map (@tl string) (spawned t).

(** [a] is the beginning of [full]. *)
Definition begins (A : Type) (a full : list A) : Prop :=
  exists rest, (a ++ rest)%list = full.

(** The arguments [run_systemd_image] gives the runtime, and those of a
    command run in the container by [run_container_command]. *)
Definition run_args (image_name container_name : string)
    (bootstrap_pip_spec : option string) : list string :=
  "run" :: "--privileged" :: "--detach" :: ("--name=" ++ container_name)
    :: "--memory=900m" :: (env_flags bootstrap_pip_spec ++ [image_name])%list.

Definition exec_args (container_name cmd : string) : list string :=
  ["exec"; "-t"; container_name; "/bin/bash"; "-c"; cmd].

Section Commands.

Context {W : Type} {host : Host W}.

(** The commands of a test run after the readiness wait, in order. *)
Definition later_args (test_name : string) (test_files : list string)
    (upgrade_from installer_args : string) : list (list string) :=
  let cp_bootstrap :=
    ["cp"; os_path_join source_path "bootstrap/."; test_name ++ ":" ++ "/srv/src"] in
  let cp_tests :=
    ["cp"; os_path_join source_path "integration-tests/"; test_name ++ ":" ++ "/srv/src"] in
  let upgrade :=
    exec_args test_name
      ("curl -L https://tljh.jupyter.org/bootstrap.py | python3 - --version="
         ++ upgrade_from) in
  let installer :=
    exec_args test_name ("python3 /srv/src/bootstrap.py " ++ installer_args) in
  let dependencies :=
    exec_args test_name
      "/opt/tljh/hub/bin/python3 -m pip install -r /srv/src/integration-tests/requirements.txt" in
  let freeze := exec_args test_name "/opt/tljh/hub/bin/python3 -m pip freeze" in
  let suite :=
    exec_args test_name
      ("/opt/tljh/hub/bin/python3 -m pytest --verbose --maxfail=2 --color=yes --durations=10 --capture=no "
         ++ join " " (map (os_path_join "/srv/src/integration-tests/") test_files)) in
  (cp_bootstrap :: cp_tests :: ["logs"; test_name]
     :: (if truthy upgrade_from then [upgrade] else [])
     ++ [installer; dependencies; freeze; suite])%list.

(** [m] starts the commands [full] in this order: all of them when it
    returns, a beginning of them otherwise. *)
Definition issues (A : Type) (m : M W A) (full : list (list string)) : Prop :=
  forall w,
    begins (issued (trace (m w))) full /\
    (forall a, result (m w) = Ret a -> issued (trace (m w)) = full).

End Commands.

(** ** Reasoning about runs *)

Section Facts.

Context {W : Type} {host : Host W}.

Lemma spawned_app (t1 t2 : list event) :
  spawned (t1 ++ t2) = (spawned t1 ++ spawned t2)%list.
Proof.
  induction t1 as [|ev t1 IH]; simpl; [reflexivity|].
  destruct ev; simpl; rewrite IH; reflexivity.
Qed.

(** The three ways a [bind] runs on. *)
Lemma bind_Ret (A B : Type) (m : M W A) (f : A -> M W B) w a w1 t1 :
  m w = (Ret a, w1, t1) ->
  bind m f w = (result (f a w1), final (f a w1), (t1 ++ trace (f a w1))%list).
Proof.
  intros E. unfold bind. rewrite E.
  destruct (f a w1) as [[r w2] t2]. reflexivity.
Qed.

Lemma bind_Raise (A B : Type) (m : M W A) (f : A -> M W B) w e w1 t1 :
  m w = (Raise e, w1, t1) -> bind m f w = (Raise e, w1, t1).
Proof. intros E. unfold bind. rewrite E. reflexivity. Qed.

Lemma bind_OutOfFuel (A B : Type) (m : M W A) (f : A -> M W B) w w1 t1 :
  m w = (OutOfFuel, w1, t1) -> bind m f w = (OutOfFuel, w1, t1).
Proof. intros E. unfold bind. rewrite E. reflexivity. Qed.

Lemma run_eta (A : Type) (x : outcome A * W * list event) :
  x = (result x, final x, trace x).
Proof. destruct x as [[r w] t]. reflexivity. Qed.

(** [bind] is associative, and [ret tt] is its unit on the right, at
    every host state. *)
Lemma bind_assoc (A B C : Type) (m : M W A) (f : A -> M W B) (g : B -> M W C) w :
  bind (bind m f) g w = bind m (fun x => bind (f x) g) w.
Proof.
  unfold bind. destruct (m w) as [[[a| e|] w1] t1]; try reflexivity.
  destruct (f a w1) as [[[b| e|] w2] t2]; try reflexivity.
  destruct (g b w2) as [[r w3] t3]. rewrite app_assoc. reflexivity.
Qed.

Lemma bind_ret_tt (m : M W unit) w : bind m (fun _ => ret tt) w = m w.
Proof.
  unfold bind, ret. destruct (m w) as [[[[]| e|] w1] t1]; try reflexivity.
  rewrite app_nil_r. reflexivity.
Qed.

(** *** Runtime resolution *)

(** [container_runtime] probes the search path for docker first, leaves the
    host as it is, starts no process, and either names one of the two
    runtimes or raises. *)
Lemma container_runtime_spec (w : W) :
  exists r t,
    container_runtime w = (r, w, EvWhich "docker" :: t) /\
    spawned t = [] /\
    (r = Ret "docker" \/ r = Ret "podman" \/ r = Raise no_runtime).
Proof.
  unfold container_runtime, runtimes, container_runtime_for, bind, shutil_which, ret, raise.
  destruct (truthy_opt (which "docker" w)).
  - eexists _, _. simpl. split; [reflexivity|]. split; [reflexivity|]. auto.
  - destruct (truthy_opt (which "podman" w)).
    + eexists _, _. simpl. split; [reflexivity|]. split; [reflexivity|]. auto.
    + eexists _, _. simpl. split; [reflexivity|]. split; [reflexivity|]. auto.
Qed.

(** [container_check_output] either fails to resolve a runtime, and then
    starts nothing, or starts exactly the command [rt :: args]. *)
Lemma container_check_output_cases (args : list string) (kw : kwargs) (w : W) :
  (exists t, container_runtime w = (Raise no_runtime, w, t) /\
             container_check_output args kw w = (Raise no_runtime, w, t) /\
             spawned t = []) \/
  (exists rt t, container_runtime w = (Ret rt, w, t) /\
                spawned t = [] /\
                container_check_output args kw w =
                  (checked (rt :: args) (fst (spawn true kw (rt :: args) w)),
                   snd (spawn true kw (rt :: args) w),
                   (t ++ [EvPrint (PRunning (rt :: args) kw);
                          EvSpawn (rt :: args) true kw])%list)).
Proof.
  destruct (container_runtime_spec w) as (r & t & E & Hs & Hr).
  assert (Hcase : (exists rt, r = Ret rt) \/ r = Raise no_runtime).
  { destruct Hr as [-> | [-> | ->]]; eauto. }
  destruct Hcase as [[rt ->] | ->].
  - right. exists rt, (EvWhich "docker" :: t). split; [exact E|]. split; [exact Hs|].
    unfold container_check_output. erewrite bind_Ret by exact E.
    unfold subprocess_check_output, popen, print, bind, ret, raise, checked, result, final, trace.
    simpl. destruct (spawn true kw (rt :: args) w) as [[code out | reason] w']; simpl.
    + destruct code; simpl; rewrite ?app_nil_r; reflexivity.
    + reflexivity.
  - left. exists (EvWhich "docker" :: t). split; [exact E|]. split; [|exact Hs].
    unfold container_check_output. erewrite bind_Raise by exact E. reflexivity.
Qed.

Lemma container_runtime_final (w : W) : final (container_runtime w) = w.
Proof.
  destruct (container_runtime_spec w) as (r & t & E & _). rewrite E. reflexivity.
Qed.

Lemma container_runtime_spawned (w : W) : spawned (trace (container_runtime w)) = [].
Proof.
  destruct (container_runtime_spec w) as (r & t & E & Hs & _). rewrite E. exact Hs.
Qed.

(** With a runtime resolved, [container_check_output] starts the one
    command [rt :: args] and hands on what becomes of it. *)
Lemma container_check_output_resolved (args : list string) (kw : kwargs) (w : W) rt :
  result (container_runtime w) = Ret rt ->
  container_check_output args kw w =
    (checked (rt :: args) (fst (spawn true kw (rt :: args) w)),
     snd (spawn true kw (rt :: args) w),
     (trace (container_runtime w)
        ++ [EvPrint (PRunning (rt :: args) kw); EvSpawn (rt :: args) true kw])%list).
Proof.
  intros Hrt.
  destruct (container_check_output_cases args kw w)
    as [(t & E & _) | (rt' & t & E & _ & Ecco)].
  - rewrite E in Hrt. discriminate.
  - rewrite E in Hrt. simpl in Hrt. injection Hrt as ->. rewrite E. exact Ecco.
Qed.

Lemma container_check_output_spawned (args : list string) (kw : kwargs) (w : W) rt :
  result (container_runtime w) = Ret rt ->
  spawned (trace (container_check_output args kw w)) = [rt :: args].
Proof.
  intros Hrt. rewrite (container_check_output_resolved args kw w Hrt).
  unfold trace at 1. simpl. rewrite spawned_app, container_runtime_spawned. reflexivity.
Qed.

(** A [CalledProcessError] out of [container_check_output] is a child that
    was started and exited with a nonzero code. *)
Lemma container_check_output_CalledProcessError (args : list string) (kw : kwargs)
    (w : W) code cmd out :
  result (container_check_output args kw w) = Raise (CalledProcessError code cmd out) ->
  exists rt bs,
    result (container_runtime w) = Ret rt /\ cmd = rt :: args /\ out = Some bs /\
    code <> 0 /\
    spawn true kw (rt :: args) w = (Exited code bs, final (container_check_output args kw w)).
Proof.
  intros Hr.
  destruct (container_check_output_cases args kw w)
    as [(t & E & Ecco & _) | (rt & t & E & _ & Ecco)].
  - rewrite Ecco in Hr. discriminate.
  - rewrite Ecco in Hr. rewrite Ecco. unfold result, final in *. simpl in *.
    destruct (spawn true kw (rt :: args) w) as [[c bs | reason] w1] eqn:Esp; simpl in *.
    + destruct c; simpl in Hr; try discriminate;
        inversion Hr; subst; exists rt, bs; rewrite E;
        repeat split; try reflexivity; try discriminate; exact Esp.
    + discriminate.
Qed.

(** *** Stopping a container *)

(** C3. When no container of the name exists, so that the inspect command
    exits with a nonzero code, [stop_container] returns normally and the only
    command it has started is that inspect: no rm is run. *)
Theorem stop_container_absent (container_name rt : string) (w w' : W)
    (code : Z) (out : bytes) :
  result (container_runtime w) = Ret rt ->
  spawn true stderr_STDOUT [rt; "inspect"; container_name] w = (Exited code out, w') ->
  code <> 0 ->
  result (stop_container container_name w) = Ret tt /\
  spawned (trace (stop_container container_name w)) = [[rt; "inspect"; container_name]] /\
  final (stop_container container_name w) = w'.
Proof.
  intros Hrt Hsp Hcode.
  pose proof (container_check_output_resolved ["inspect"; container_name]
                stderr_STDOUT w Hrt) as E.
  rewrite Hsp in E. cbn [fst snd] in E.
  assert (Hc : checked [rt; "inspect"; container_name] (Exited code out)
               = Raise (CalledProcessError code [rt; "inspect"; container_name] (Some out))).
  { destruct code; simpl; [congruence | reflexivity | reflexivity]. }
  rewrite Hc in E.
  unfold stop_container, bind, try_except_CalledProcessError, ret, result, final, trace.
  rewrite E. simpl. rewrite !app_nil_r, spawned_app, container_runtime_spawned.
  repeat split.
Qed.

(** How [stop_container] treats a failing inspect. Whatever makes the inspect
    command exit with a nonzero code, [stop_container] takes it for a
    missing container: it
    returns normally and has started nothing but the inspect. It raises only
    an error of the inspect that is no [CalledProcessError] (no runtime
    found, or the runtime could not be started), or the error of the rm
    that follows a successful inspect. *)
Theorem stop_container_swallows_inspect_failure (container_name : string) (w : W) :
  let inspect := container_check_output ["inspect"; container_name] stderr_STDOUT w in
  (forall code cmd out,
      result inspect = Raise (CalledProcessError code cmd out) ->
      stop_container container_name w = (Ret tt, final inspect, trace inspect) /\
      spawned (trace inspect) = [cmd]) /\
  (forall e,
      result (stop_container container_name w) = Raise e ->
      (result inspect = Raise e /\ is_CalledProcessError e = false) \/
      (exists bs,
          result inspect = Ret bs /\
          result (container_check_output ["rm"; "-f"; container_name] no_kwargs
                    (final inspect)) = Raise e)).
Proof.
  intros inspect. split.
  - intros code cmd out Hr.
    destruct (container_check_output_CalledProcessError _ _ _ Hr)
      as (rt & bs & Hrt & -> & -> & _ & _).
    split.
    + unfold stop_container, bind, try_except_CalledProcessError, ret.
      fold inspect. rewrite (run_eta inspect), Hr. simpl.
      rewrite !app_nil_r. reflexivity.
    + unfold inspect. apply container_check_output_spawned. exact Hrt.
  - intros e. unfold stop_container, bind, try_except_CalledProcessError, ret, result.
    fold inspect. rewrite (run_eta inspect) at 1.
    destruct (result inspect) as [bs | e' |] eqn:Hr; simpl.
    + destruct (container_check_output ["rm"; "-f"; container_name] no_kwargs
                  (final inspect)) as [[[bs' | e'' |] w2] t2] eqn:Erm;
        simpl; intros He; try discriminate.
      right. exists bs. split; [exact Hr|]. injection He as <-. reflexivity.
    + destruct (is_CalledProcessError e') eqn:Hcpe; simpl; intros He; try discriminate.
      left. injection He as <-. split; [exact Hr | exact Hcpe].
    + intros He. discriminate.
Qed.
(** *** Commands that discard their output *)

Lemma bind_const_ret (A B : Type) (m : M W A) (b : B) w :
  bind m (fun _ => ret b) w =
    (match result (m w) with
     | Ret _ => Ret b
     | Raise e => Raise e
     | OutOfFuel => OutOfFuel
     end, final (m w), trace (m w)).
Proof.
  unfold bind, ret, result, final, trace.
  destruct (m w) as [[[a | e |] w1] t1]; simpl; rewrite ?app_nil_r; reflexivity.
Qed.

Lemma bind_runtime_head (B : Type) (f : string -> M W B) (w : W) :
  exists t, trace (bind container_runtime f w) = EvWhich "docker" :: t.
Proof.
  destruct (container_runtime_spec w) as (r & t & E & _).
  unfold bind. rewrite E. destruct r as [rt | e |].
  - destruct (f rt w) as [[r2 w2] t2]. simpl. eauto.
  - simpl. eauto.
  - simpl. eauto.
Qed.

(** *** Building and running the image *)

(** C7. [run_systemd_image] starts one command: [run], privileged and
    detached, with the memory ceiling of 900 MiB, and with the
    [TLJH_BOOTSTRAP_PIP_SPEC] environment flags exactly when the bootstrap
    pip spec is a non-empty string. *)
Theorem run_systemd_image_command (image_name container_name : string)
    (bootstrap_pip_spec : option string) (w : W) (rt : string) :
  result (container_runtime w) = Ret rt ->
  spawned (trace (run_systemd_image image_name container_name bootstrap_pip_spec w)) =
    [rt :: "run" :: "--privileged" :: "--detach" :: ("--name=" ++ container_name)
        :: "--memory=900m" :: (env_flags bootstrap_pip_spec ++ [image_name])%list] /\
  (forall s, bootstrap_pip_spec = Some s -> s <> "" ->
             env_flags bootstrap_pip_spec = ["-e"; "TLJH_BOOTSTRAP_PIP_SPEC=" ++ s]) /\
  (bootstrap_pip_spec = None \/ bootstrap_pip_spec = Some "" ->
   env_flags bootstrap_pip_spec = []).
Proof.
  intros Hrt. split; [|split].
  - unfold run_systemd_image. rewrite bind_const_ret. unfold trace at 1. simpl.
    rewrite (container_check_output_spawned _ _ _ Hrt).
    destruct bootstrap_pip_spec as [[|c s]|]; reflexivity.
  - intros s -> Hs. destruct s as [|c s]; [congruence | reflexivity].
  - intros [-> | ->]; reflexivity.
Qed.

(** C8. [build_systemd_image] starts one [build] command, and after the tag
    and the source path it carries one [--build-arg=] flag for each build
    argument, in the order given, duplicates included. *)
Theorem build_systemd_image_flags (image_name source : string)
    (build_args : list string) (w : W) (rt : string) :
  result (container_runtime w) = Ret rt ->
  spawned (trace (build_systemd_image image_name source (Some build_args) w)) =
    [rt :: "build" :: ("-t=" ++ image_name) :: source
        :: map (fun ba => "--build-arg=" ++ ba) build_args].
Proof.
  intros Hrt. unfold build_systemd_image. rewrite bind_const_ret. unfold trace at 1. simpl.
  rewrite (container_check_output_spawned _ _ _ Hrt).
  destruct build_args as [|ba rest]; reflexivity.
Qed.

(** *** No cached runtime *)

(** C4, as the script has it. Nothing is cached: every call of
    [container_check_output] and of [container_run], from whatever host
    state, begins by probing the search path for docker again, and
    resolving the runtime leaves the state as it was. *)
Theorem runtime_resolved_on_every_call (args : list string) (kw : kwargs) (w : W) :
  (exists t, trace (container_check_output args kw w) = EvWhich "docker" :: t) /\
  (exists t, trace (container_run args kw w) = EvWhich "docker" :: t) /\
  final (container_runtime w) = w.
Proof.
  split; [|split].
  - apply bind_runtime_head.
  - apply bind_runtime_head.
  - apply container_runtime_final.
Qed.

(** *** Rules for properties of runs *)

Lemma slept_app (t1 t2 : list event) :
  slept (t1 ++ t2) = (slept t1 ++ slept t2)%list.
Proof.
  induction t1 as [|ev t1 IH]; simpl; [reflexivity|].
  destruct ev; simpl; rewrite IH; reflexivity.
Qed.

Lemma post_bind (A B : Type) (m : M W A) (f : A -> M W B) (w : W)
    (Q : outcome B -> W -> list event -> Prop) :
  post (m w) (fun r w1 t1 =>
    match r with
    | Ret a => post (f a w1) (fun r2 w2 t2 => Q r2 w2 (t1 ++ t2)%list)
    | Raise e => Q (Raise e) w1 t1
    | OutOfFuel => Q OutOfFuel w1 t1
    end) ->
  post (bind m f w) Q.
Proof.
  unfold post, bind, result, final, trace.
  destruct (m w) as [[[a | e |] w1] t1]; simpl; try (intros H; exact H).
  destruct (f a w1) as [[r2 w2] t2]. simpl. intros H. exact H.
Qed.

Lemma container_runtime_slept (w : W) : slept (trace (container_runtime w)) = [].
Proof.
  unfold container_runtime, runtimes, container_runtime_for, bind, shutil_which, ret, raise.
  destruct (truthy_opt (which "docker" w)); [reflexivity|].
  destruct (truthy_opt (which "podman" w)); reflexivity.
Qed.

(** What a call of [container_check_output] leaves behind. *)
Lemma container_check_output_post (args : list string) (kw : kwargs) (w : W) :
  post (container_check_output args kw w) (fun r w1 t1 =>
    slept t1 = [] /\
    ((r = Raise no_runtime /\ w1 = w /\ spawned t1 = []) \/
     (exists rt,
         result (container_runtime w) = Ret rt /\
         r = checked (rt :: args) (fst (spawn true kw (rt :: args) w)) /\
         w1 = snd (spawn true kw (rt :: args) w) /\
         spawned t1 = [rt :: args]))).
Proof.
  unfold post.
  destruct (container_check_output_cases args kw w)
    as [(t & E & Ecco & Hs) | (rt & t & E & Hs & Ecco)].
  - rewrite Ecco. unfold result, final, trace. simpl. split.
    + pose proof (container_runtime_slept w) as Hsl. rewrite E in Hsl. exact Hsl.
    + left. auto.
  - rewrite Ecco. unfold result at 1, final, trace. simpl. split.
    + pose proof (container_runtime_slept w) as Hsl. rewrite E in Hsl.
      unfold trace in Hsl. simpl in Hsl.
      rewrite slept_app, Hsl. reflexivity.
    + right. exists rt. rewrite E. repeat split.
      rewrite spawned_app, Hs. reflexivity.
Qed.

(** *** The readiness probe *)

Lemma attempts_app (container_name : string) (t1 t2 : list event) :
  attempts container_name (t1 ++ t2)
  = (attempts container_name t1 + attempts container_name t2)%nat.
Proof. unfold attempts. rewrite spawned_app, filter_app, length_app. reflexivity. Qed.

Lemma is_liveness_liveness (container_name rt : string) :
  is_liveness container_name (rt :: liveness_args container_name) = true.
Proof. unfold is_liveness. simpl. rewrite String.eqb_refl. reflexivity. Qed.

(** The [try] block of a poll starts at most the liveness command and
    never sleeps. *)
Lemma poll_try_post (container_name : string) (w : W) :
  post (poll_try container_name w) (fun r w1 t1 =>
    slept t1 = [] /\
    spawned t1 = spawned (trace (container_check_output (liveness_args container_name)
                                   no_kwargs w)) /\
    Forall (fun cmd => tl cmd = liveness_args container_name) (spawned t1) /\
    (attempts container_name t1 <= 1)%nat).
Proof.
  unfold poll_try. fold (liveness_args container_name).
  apply post_bind.
  assert (Hshape : forall t1,
    slept t1 = [] ->
    (spawned t1 = [] \/ exists rt, spawned t1 = [rt :: liveness_args container_name]) ->
    slept t1 = [] /\
    Forall (fun cmd => tl cmd = liveness_args container_name) (spawned t1) /\
    (attempts container_name t1 <= 1)%nat).
  { intros t1 Hsl [Hs | [rt Hs]]; unfold attempts; rewrite Hs; simpl.
    - repeat split; auto.
    - repeat split; auto. fold (liveness_args container_name).
      rewrite is_liveness_liveness. simpl. lia. }
  pose proof (container_check_output_post (liveness_args container_name) no_kwargs w) as H.
  unfold post in *. destruct H as [Hsl Hcases].
  assert (Hsp : spawned (trace (container_check_output (liveness_args container_name)
                                   no_kwargs w)) = [] \/
                exists rt, spawned (trace (container_check_output
                                   (liveness_args container_name) no_kwargs w))
                           = [rt :: liveness_args container_name]).
  { destruct Hcases as [(_ & _ & Hs) | (rt & _ & _ & _ & Hs)]; eauto. }
  destruct (Hshape _ Hsl Hsp) as (H1 & H2 & H3).
  destruct (result (container_check_output (liveness_args container_name) no_kwargs w))
    as [out | e |]; try (repeat split; assumption).
  unfold bytes_decode. destruct (decode out) as [s0 |]; unfold bind, print, ret, raise; simpl.
  - rewrite slept_app, spawned_app, Hsl. simpl. rewrite app_nil_r.
    unfold attempts in *. rewrite spawned_app. simpl. rewrite app_nil_r.
    repeat split; assumption.
  - rewrite app_nil_r. repeat split; assumption.
Qed.

(** Fuel beyond what the loop needs changes nothing. *)
Lemma check_container_ready_loop_fuel (extra : nat) (container_name : string)
    (timeout now : Z) (fuel : nat) :
  forall w,
    result (check_container_ready_loop fuel container_name timeout now w) <> OutOfFuel ->
    check_container_ready_loop (fuel + extra) container_name timeout now w
    = check_container_ready_loop fuel container_name timeout now w.
Proof.
  induction fuel as [|fuel IH]; intros w; cbn [check_container_ready_loop Nat.add].
  - intros H. exfalso. apply H. reflexivity.
  - unfold bind.
    destruct (try_except_CalledProcessError (poll_try container_name)
                (poll_except container_name timeout now) w) as [[[[|] | e |] w1] t1];
      try reflexivity.
    intros H. rewrite IH; [reflexivity|].
    intros Hout. apply H.
    destruct (check_container_ready_loop fuel container_name timeout now w1)
      as [[r2 w2] t2].
    unfold result in *. simpl in *. exact Hout.
Qed.

(** C9. Only a [CalledProcessError] of the [try] block is handled. Any
    other exception raised in it, at any poll, leaves the loop as it is: the
    run ends where the exception was raised, so with no diagnostic read, no
    sleep and no further poll, and the error is not replaced by the
    timeout's. *)
Theorem check_container_ready_other_exception (container_name : string)
    (timeout now : Z) (fuel : nat) (w : W) (e : exn) :
  result (poll_try container_name w) = Raise e ->
  is_CalledProcessError e = false ->
  check_container_ready_loop (S fuel) container_name timeout now w =
    (Raise e, final (poll_try container_name w), trace (poll_try container_name w)) /\
  let run := check_container_ready (S fuel) container_name timeout w in
  run = (Raise e, final (poll_try container_name w),
         EvTime :: trace (poll_try container_name w)) /\
  Forall (fun cmd => tl cmd = liveness_args container_name) (spawned (trace run)) /\
  (attempts container_name (trace run) <= 1)%nat /\
  slept (trace run) = [].
Proof.
  intros Hr Hcpe.
  assert (Hloop : forall now',
    check_container_ready_loop (S fuel) container_name timeout now' w =
    (Raise e, final (poll_try container_name w), trace (poll_try container_name w))).
  { intros now'. simpl. unfold bind, try_except_CalledProcessError.
    rewrite (run_eta (poll_try container_name w)), Hr, Hcpe. reflexivity. }
  split; [apply Hloop|].
  assert (Hrun : check_container_ready (S fuel) container_name timeout w =
    (Raise e, final (poll_try container_name w),
     EvTime :: trace (poll_try container_name w))).
  { unfold check_container_ready, bind, time_time. rewrite Hloop. reflexivity. }
  cbv zeta. rewrite Hrun. split; [reflexivity|].
  pose proof (poll_try_post container_name w) as (Hsl & _ & Hall & Hatt).
  unfold trace at 1 3 5. simpl. unfold attempts in *. simpl.
  repeat split; assumption.
Qed.

(** *** The bound on the polls *)

Section Bounded.

Variables (container_name : string) (timeout : Z).

(** The container never answers the liveness command. *)
Hypothesis never_answers : forall w,
  exists code cmd out,
    result (container_check_output (liveness_args container_name) no_kwargs w)
    = Raise (CalledProcessError code cmd out).

(** Every child process takes time, and a sleep lasts at least what it is
    asked. *)
Hypothesis spawn_takes_time : forall capture kw cmd w,
  time_ w < time_ (snd (spawn capture kw cmd w)).

Hypothesis sleep_lasts : forall secs w,
  time_ w + 1000 * secs <= time_ (sleep secs w).

Lemma poll_try_never (w : W) :
  exists code cmd out w1 t1,
    poll_try container_name w = (Raise (CalledProcessError code cmd out), w1, t1) /\
    time_ w < time_ w1 /\
    (attempts container_name t1 <= 1)%nat.
Proof.
  destruct (never_answers w) as (code & cmd & out & Hr).
  destruct (container_check_output_CalledProcessError _ _ _ Hr)
    as (rt & bs & _ & _ & _ & _ & Hsp).
  pose proof (poll_try_post container_name w) as (_ & _ & _ & Hatt).
  assert (E : poll_try container_name w =
              (Raise (CalledProcessError code cmd out),
               final (container_check_output (liveness_args container_name) no_kwargs w),
               trace (container_check_output (liveness_args container_name) no_kwargs w))).
  { unfold poll_try. fold (liveness_args container_name).
    apply bind_Raise. rewrite <- Hr. apply run_eta. }
  rewrite E in Hatt. exists code, cmd, out. eexists _, _. split; [exact E|]. split.
  - pose proof (spawn_takes_time true no_kwargs (rt :: liveness_args container_name) w) as Ht.
    rewrite Hsp in Ht. exact Ht.
  - exact Hatt.
Qed.

Lemma poll_diagnose_post (args : list string) (w : W) :
  (forall rt, is_liveness container_name (rt :: args) = false) ->
  post (poll_diagnose args w) (fun r w1 t1 =>
    time_ w <= time_ w1 /\
    attempts container_name t1 = 0%nat /\
    (r = Ret tt \/ exists e, r = Raise e /\ is_CalledProcessError e = false)).
Proof.
  intros Hargs.
  pose proof (container_check_output_post args no_kwargs w) as H.
  unfold post in *. unfold poll_diagnose, try_except_CalledProcessError, bind.
  destruct (container_check_output args no_kwargs w) as [[r w1] t1].
  unfold result, final, trace in H. simpl in H. destruct H as [_ H].
  assert (Hfacts : time_ w <= time_ w1 /\ attempts container_name t1 = 0%nat /\
                   r <> OutOfFuel /\
                   forall e, r = Raise e -> is_CalledProcessError e = false ->
                             is_CalledProcessError e = false).
  { destruct H as [(-> & -> & Hs) | (rt & _ & -> & -> & Hs)];
      unfold attempts; rewrite Hs; simpl.
    - repeat split; auto; try lia. discriminate.
    - rewrite Hargs. simpl. repeat split; auto.
      + pose proof (spawn_takes_time true no_kwargs (rt :: args) w). lia.
      + destruct (fst (spawn true no_kwargs (rt :: args) w)) as [[|c|c] out | reason];
          simpl; discriminate. }
  destruct Hfacts as (Ht & Ha & Hfuel & _).
  destruct r as [out | e |]; [| |congruence].
  - unfold bytes_decode. destruct (decode out) as [s0 |]; unfold print, ret, raise; simpl.
    + unfold attempts in *. rewrite spawned_app. simpl. rewrite app_nil_r. auto.
    + rewrite app_nil_r. repeat split; auto. right. eexists. split; reflexivity.
  - destruct (is_CalledProcessError e) eqn:Hcpe; unfold print; simpl.
    + unfold attempts in *. rewrite spawned_app. simpl. rewrite app_nil_r. auto.
    + repeat split; auto. right. exists e. auto.
Qed.

Lemma not_liveness_inspect rt :
  is_liveness container_name (rt :: ["inspect"; container_name]) = false.
Proof. reflexivity. Qed.

Lemma not_liveness_logs rt :
  is_liveness container_name (rt :: ["logs"; container_name]) = false.
Proof. reflexivity. Qed.

(** The [except] block of a poll: it starts no liveness command; when it
    lets the loop go round again the timeout had not passed and five more
    seconds have; what it raises is the timeout's error unless a diagnostic
    read raised. *)
Lemma poll_except_post (now : Z) (e : exn) (w : W) :
  post (poll_except container_name timeout now e w) (fun r w1 t1 =>
    attempts container_name t1 = 0%nat /\
    match r with
    | Ret b => b = false /\ time_ w + 5000 <= time_ w1 /\ time_ w - now <= 1000 * timeout
    | Raise e' =>
        is_CalledProcessError e' = false /\
        (diagnostics_return container_name -> e' = not_ready container_name)
    | OutOfFuel => False
    end).
Proof.
  unfold post, poll_except, bind, print, time_time, time_sleep, ret, raise.
  pose proof (poll_diagnose_post ["inspect"; container_name] w not_liveness_inspect) as H1.
  unfold post in H1.
  destruct (poll_diagnose ["inspect"; container_name] w) as [[r1 w1] t1] eqn:E1.
  unfold result, final, trace in H1. simpl in H1. destruct H1 as (Ht1 & Ha1 & Hr1).
  destruct Hr1 as [-> | (e1 & -> & Hcpe1)].
  2:{ unfold result, final, trace, attempts in *. simpl. split; [exact Ha1|].
      split; [exact Hcpe1|]. intros Hd. destruct (Hd w) as [Hd1 _].
      rewrite E1 in Hd1. discriminate. }
  pose proof (poll_diagnose_post ["logs"; container_name] w1 not_liveness_logs) as H2.
  unfold post in H2.
  destruct (poll_diagnose ["logs"; container_name] w1) as [[r2 w2] t2] eqn:E2.
  unfold result, final, trace in H2. simpl in H2. destruct H2 as (Ht2 & Ha2 & Hr2).
  destruct Hr2 as [-> | (e2 & -> & Hcpe2)].
  2:{ unfold result, final, trace, attempts in *. simpl.
      rewrite spawned_app, filter_app, length_app, Ha1, Ha2.
      split; [reflexivity|]. split; [exact Hcpe2|]. intros Hd. destruct (Hd w1) as [_ Hd2].
      rewrite E2 in Hd2. discriminate. }
  assert (Hatt : forall tail, spawned tail = [] ->
            attempts container_name (EvPrint (PExn e) :: t1 ++ t2 ++ tail) = 0%nat).
  { intros tail Htail. unfold attempts in *. simpl.
    rewrite !spawned_app, !filter_app, !length_app, Ha1, Ha2, Htail. reflexivity. }
  destruct (time_ w2 - now >? 1000 * timeout) eqn:Hcmp;
    unfold result, final, trace; cbn [fst snd app].
  - split; [apply Hatt; reflexivity|]. split; [reflexivity|]. intros _. reflexivity.
  - split; [apply Hatt; reflexivity|]. split; [reflexivity|].
    pose proof (sleep_lasts 5 w2). pose proof (Zgt_cases (time_ w2 - now) (1000 * timeout)) as Hc.
    rewrite Hcmp in Hc. lia.
Qed.

(** The loop, [n] sleeps short of the timeout at the latest: it ends by
    raising, within [n + 1] polls. *)
Lemma check_container_ready_loop_bound (now : Z) (n : nat) :
  forall (fuel : nat) (w : W),
    (n < fuel)%nat ->
    1000 * timeout <= time_ w - now + 5000 * Z.of_nat n ->
    post (check_container_ready_loop fuel container_name timeout now w) (fun r w1 t1 =>
      (attempts container_name t1 <= n + 1)%nat /\
      exists e, r = Raise e /\ is_CalledProcessError e = false /\
                (diagnostics_return container_name -> e = not_ready container_name)).
Proof.
  induction n as [|n IH]; intros fuel w Hfuel Htime;
    (destruct fuel as [|fuel]; [lia|]); cbn [check_container_ready_loop];
    destruct (poll_try_never w) as (code & cmd & out & w1 & t1 & Etry & Ht1 & Ha1);
    pose proof (poll_except_post now (CalledProcessError code cmd out) w1) as Hex;
    unfold post in *; unfold bind, try_except_CalledProcessError; rewrite Etry;
    cbn [is_CalledProcessError];
    destruct (poll_except container_name timeout now (CalledProcessError code cmd out) w1)
      as [[r2 w2] t2];
    unfold result, final, trace in Hex; cbn [fst snd] in Hex; destruct Hex as (Ha2 & Hr2);
    assert (Hatt : (attempts container_name (t1 ++ t2) <= 1)%nat)
      by (unfold attempts in *; rewrite spawned_app, filter_app, length_app; lia);
    destruct r2 as [b | e2 |]; try contradiction.
  - destruct Hr2 as (-> & Hsl & Hto). lia.
  - unfold result, final, trace. cbn [fst snd]. split; [lia|]. exists e2. tauto.
  - destruct Hr2 as (-> & Hsl & Hto).
    assert (Hfuel' : (n < fuel)%nat) by lia.
    assert (Htime' : 1000 * timeout <= time_ w2 - now + 5000 * Z.of_nat n) by lia.
    specialize (IH fuel w2 Hfuel' Htime').
    destruct (check_container_ready_loop fuel container_name timeout now w2)
      as [[r3 w3] t3].
    unfold result, final, trace in *. cbn [fst snd] in *. destruct IH as (Ha3 & Hr3).
    split; [|exact Hr3].
    rewrite attempts_app. lia.
  - unfold result, final, trace. cbn [fst snd]. split; [lia|]. exists e2. tauto.
Qed.

(** C2, as the script has it. The poll interval is the script's constant of
    five seconds. If the container never answers, every child process takes
    time and a sleep lasts at least what it is asked, then
    [check_container_ready] ends by raising after at most [ceil(timeout/5) + 1]
    liveness commands (three for a timeout of 10 seconds), given that much
    fuel. What it raises is no [CalledProcessError]; it is the error of the
    timeout when the diagnostic reads themselves do not raise. *)
Theorem check_container_ready_bounded (fuel : nat) (w : W) :
  0 <= timeout ->
  (ceil_div5 timeout < fuel)%nat ->
  let run := check_container_ready fuel container_name timeout w in
  (attempts container_name (trace run) <= ceil_div5 timeout + 1)%nat /\
  exists e,
    result run = Raise e /\ is_CalledProcessError e = false /\
    (diagnostics_return container_name -> e = not_ready container_name).
Proof.
  intros Hpos Hfuel. cbv zeta.
  assert (Htime : 1000 * timeout <= time_ w - time_ w + 5000 * Z.of_nat (ceil_div5 timeout)).
  { unfold ceil_div5. rewrite Z2Nat.id by (apply Z.div_pos; lia).
    pose proof (Z.mod_pos_bound (timeout + 4) 5 ltac:(lia)) as Hm.
    pose proof (Z.div_mod (timeout + 4) 5 ltac:(lia)) as Hd. lia. }
  pose proof (check_container_ready_loop_bound _ _ Hfuel Htime) as H.
  unfold post in H. unfold check_container_ready, bind, time_time.
  destruct (check_container_ready_loop fuel container_name timeout (time_ w) w)
    as [[r1 w1] t1].
  unfold result, final, trace in *. cbn [fst snd app] in *.
  destruct H as (Ha & Hr). split; [|exact Hr].
  unfold attempts in *. exact Ha.
Qed.

End Bounded.


(** *** The steps of a test run *)

Lemma bind_ext (A B : Type) (m : M W A) (f g : A -> M W B) w :
  (forall a w', f a w' = g a w') -> bind m f w = bind m g w.
Proof.
  intros H. unfold bind. destruct (m w) as [[[a | e |] w1] t1]; try reflexivity.
  rewrite H. reflexivity.
Qed.

Lemma bind_ret_l (A B : Type) (a : A) (f : A -> M W B) w : bind (ret a) f w = f a w.
Proof. unfold bind, ret. destruct (f a w) as [[r w2] t2]. reflexivity. Qed.

Lemma run_steps_app (act : step -> M W unit) (l1 l2 : list step) w :
  run_steps act (l1 ++ l2) w = bind (run_steps act l1) (fun _ => run_steps act l2) w.
Proof.
  revert w. induction l1 as [|st l1 IH]; intros w; simpl.
  - rewrite bind_ret_l. reflexivity.
  - rewrite bind_assoc. apply bind_ext. intros _ w'. apply IH.
Qed.

(** What the commands of the later steps start. *)
Lemma run_container_command_spawned (container_name cmd rt : string) (w : W) :
  result (container_runtime w) = Ret rt ->
  spawned (trace (run_container_command container_name cmd w))
  = [[rt; "exec"; "-t"; container_name; "/bin/bash"; "-c"; cmd]].
Proof.
  intros Hrt. unfold run_container_command. rewrite bind_const_ret. unfold trace at 1.
  cbn [snd]. unfold container_run.
  erewrite bind_Ret
    by (rewrite (run_eta (container_runtime w)), Hrt, container_runtime_final; reflexivity).
  unfold trace at 1. cbn [snd]. rewrite spawned_app, container_runtime_spawned.
  unfold subprocess_run, bind, print, popen.
  destruct (spawn false check_True
              ([rt] ++ ["exec"; "-t"; container_name; "/bin/bash"; "-c"; cmd])%list w)
    as [[code out | reason] w1]; [destruct (kw_check check_True && negb (code =? 0))|];
    reflexivity.
Qed.

Lemma copy_to_container_spawned (container_name src_path dest_path rt : string) (w : W) :
  result (container_runtime w) = Ret rt ->
  spawned (trace (copy_to_container container_name src_path dest_path w))
  = [[rt; "cp"; src_path; container_name ++ ":" ++ dest_path]].
Proof.
  intros Hrt. unfold copy_to_container. rewrite bind_const_ret. unfold trace at 1.
  cbn [snd]. apply container_check_output_spawned. exact Hrt.
Qed.

(** [run_test] is its plan, run step by step. *)
Lemma run_test_run_steps (fuel : nat) (image_name test_name : string)
    (bootstrap_pip_spec : option string) (test_files : list string)
    (upgrade_from installer_args : string) (w : W) :
  run_test fuel image_name test_name bootstrap_pip_spec test_files
           upgrade_from installer_args w
  = run_steps (step_action fuel image_name test_name bootstrap_pip_spec test_files
                           upgrade_from installer_args)
              (plan upgrade_from) w.
Proof.
  unfold run_test, plan.
  destruct (truthy upgrade_from); cbn [app run_steps step_action];
    repeat (rewrite ?bind_assoc; apply bind_ext; intros);
    rewrite ?bind_ret_l;
    repeat (rewrite ?bind_assoc; apply bind_ext; intros);
    symmetry; apply bind_ret_tt.
Qed.


(** C6, as the script has it. The read of the logs in a test run is a step
    like the others: when the steps before it have returned and the logs
    command raises, [CalledProcessError] included, the run ends there with
    that error, and nothing is started after the logs command. *)
Theorem run_test_aborts_on_logs_failure (fuel : nat) (image_name test_name : string)
    (bootstrap_pip_spec : option string) (test_files : list string)
    (upgrade_from installer_args : string) (w w4 : W) (t4 : list event) (e : exn) :
  let act := step_action fuel image_name test_name bootstrap_pip_spec test_files
                         upgrade_from installer_args in
  let logs := container_check_output ["logs"; test_name] no_kwargs w4 in
  run_steps act [StopStep; RunStep; ReadyStep; CopyStep] w = (Ret tt, w4, t4) ->
  result logs = Raise e ->
  run_test fuel image_name test_name bootstrap_pip_spec test_files
           upgrade_from installer_args w
  = (Raise e, final logs,
     (t4 ++ EvPrint (PStr ("--- Start of logs from the container: " ++ test_name))
         :: trace logs)%list).
Proof.
  intros act logs H4 Hlogs. rewrite run_test_run_steps. fold act.
  change (plan upgrade_from)
    with ([StopStep; RunStep; ReadyStep; CopyStep]
            ++ LogsStep :: (if truthy upgrade_from then [UpgradeStep] else [])
            ++ [InstallStep; DepsStep; FreezeStep; SuiteStep])%list.
  rewrite run_steps_app. erewrite bind_Ret by exact H4.
  assert (E : act LogsStep w4
              = (Raise e, final logs,
                 EvPrint (PStr ("--- Start of logs from the container: " ++ test_name))
                   :: trace logs)).
  { unfold act, step_action, bind at 1, print at 1. fold logs.
    erewrite bind_Raise; [reflexivity|].
    rewrite <- Hlogs. apply run_eta. }
  cbn [run_steps]. erewrite bind_Raise by exact E. reflexivity.
Qed.

End Facts.

(** ** Runs on the simulated hosts *)

(** The scenario of a plain run: test [t1] with the one file [a.py] and no
    upgrade, on a fresh host whose container answers the first poll. *)
Example run_test_scenario :
  let run := run_test 30 "tljh-systemd" "t1" (Some "") ["a.py"] "" "" (fresh 0) in
  result run = Ret tt /\
  spawned (trace run) =
    [["docker"; "inspect"; "t1"];
     ["docker"; "run"; "--privileged"; "--detach"; "--name=t1"; "--memory=900m";
      "tljh-systemd"];
     ["docker"; "exec"; "-t"; "t1"; "id"];
     ["docker"; "cp"; "/home/runner/work/the-littlest-jupyterhub/bootstrap/.";
      "t1:/srv/src"];
     ["docker"; "cp"; "/home/runner/work/the-littlest-jupyterhub/integration-tests/";
      "t1:/srv/src"];
     ["docker"; "logs"; "t1"];
     ["docker"; "exec"; "-t"; "t1"; "/bin/bash"; "-c"; "python3 /srv/src/bootstrap.py "];
     ["docker"; "exec"; "-t"; "t1"; "/bin/bash"; "-c";
      "/opt/tljh/hub/bin/python3 -m pip install -r /srv/src/integration-tests/requirements.txt"];
     ["docker"; "exec"; "-t"; "t1"; "/bin/bash"; "-c";
      "/opt/tljh/hub/bin/python3 -m pip freeze"];
     ["docker"; "exec"; "-t"; "t1"; "/bin/bash"; "-c";
      "/opt/tljh/hub/bin/python3 -m pytest --verbose --maxfail=2 --color=yes --durations=10 --capture=no /srv/src/integration-tests/a.py"]].
Proof. vm_compute. split; reflexivity. Qed.

(** With an upgrade asked for, the upgrade command comes between the logs
    and the installer. *)
Example run_test_scenario_upgrade :
  let run := run_test 30 "tljh-systemd" "t1" None ["a.py"; "b.py"] "latest" "--admin u"
               (fresh 0) in
  result run = Ret tt /\
  map (fun cmd => nth 6 cmd "") (skipn 6 (spawned (trace run))) =
    ["curl -L https://tljh.jupyter.org/bootstrap.py | python3 - --version=latest";
     "python3 /srv/src/bootstrap.py --admin u";
     "/opt/tljh/hub/bin/python3 -m pip install -r /srv/src/integration-tests/requirements.txt";
     "/opt/tljh/hub/bin/python3 -m pip freeze";
     "/opt/tljh/hub/bin/python3 -m pytest --verbose --maxfail=2 --color=yes --durations=10 --capture=no /srv/src/integration-tests/a.py /srv/src/integration-tests/b.py"].
Proof. vm_compute. split; reflexivity. Qed.

(** C3 at a fresh host: no container [x] exists there. *)
Lemma stop_container_absent_fresh :
  result (stop_container "x" (fresh 0)) = Ret tt /\
  spawned (trace (stop_container "x" (fresh 0))) = [["docker"; "inspect"; "x"]] /\
  final (stop_container "x" (fresh 0)) = sim_set (fresh 0) [].
Proof.
  apply (@stop_container_absent sim sim_host "x" "docker" (fresh 0) (sim_set (fresh 0) [])
           1 (text "Error: No such object")).
  - reflexivity.
  - reflexivity.
  - discriminate.
Defined.

(** Where the engine's daemon does not answer although the container
    exists, the failure of the inspect is swallowed all the same. *)
Lemma stop_container_swallows_unreachable :
  stop_container "x" (unreachable ["x"])
  = (Ret tt,
     final (container_check_output ["inspect"; "x"] stderr_STDOUT (unreachable ["x"])),
     trace (container_check_output ["inspect"; "x"] stderr_STDOUT (unreachable ["x"]))) /\
  spawned (trace (container_check_output ["inspect"; "x"] stderr_STDOUT (unreachable ["x"])))
  = [["docker"; "inspect"; "x"]].
Proof.
  apply (proj1 (@stop_container_swallows_inspect_failure sim sim_host "x" (unreachable ["x"]))
           1 ["docker"; "inspect"; "x"] (Some (text "Cannot connect to the Docker daemon"))).
  reflexivity.
Defined.

(** C5. The script does not keep to the claim, nor to its own comment
    that a failing inspect means no such container exists: where the
    container [x] exists and the inspect fails because the engine's daemon
    does not answer, [stop_container] returns normally instead of reporting
    the error, has started nothing but the inspect, and leaves the
    container as it was. *)
Lemma stop_container_unreachable_is_success :
  let w := unreachable ["x"] in
  fst (spawn true stderr_STDOUT ["docker"; "inspect"; "x"] w)
  = Exited 1 (text "Cannot connect to the Docker daemon") /\
  result (stop_container "x" w) = Ret tt /\
  spawned (trace (stop_container "x" w)) = [["docker"; "inspect"; "x"]] /\
  containers (final (stop_container "x" w)) = ["x"].
Proof. vm_compute. repeat split. Qed.

(** C7 with a bootstrap pip spec. *)
Lemma run_systemd_image_command_spec :
  spawned (trace (run_systemd_image "tljh-systemd" "t1" (Some "tljh==1.0") (fresh 0))) =
    [["docker"; "run"; "--privileged"; "--detach"; "--name=t1"; "--memory=900m";
      "-e"; "TLJH_BOOTSTRAP_PIP_SPEC=tljh==1.0"; "tljh-systemd"]] /\
  (forall s, Some "tljh==1.0" = Some s -> s <> "" ->
             env_flags (Some "tljh==1.0") = ["-e"; "TLJH_BOOTSTRAP_PIP_SPEC=" ++ s]) /\
  (Some "tljh==1.0" = None \/ Some "tljh==1.0" = Some "" ->
   env_flags (Some "tljh==1.0") = []).
Proof.
  apply (@run_systemd_image_command sim sim_host "tljh-systemd" "t1" (Some "tljh==1.0")
           (fresh 0) "docker").
  reflexivity.
Defined.

(** C8 with the build arguments [A=1] and [B=2]. *)
Lemma build_systemd_image_flags_A_B :
  spawned (trace (build_systemd_image "tljh-systemd" "integration-tests"
                    (Some ["A=1"; "B=2"]) (fresh 0))) =
    [["docker"; "build"; "-t=tljh-systemd"; "integration-tests";
      "--build-arg=A=1"; "--build-arg=B=2"]].
Proof.
  apply (@build_systemd_image_flags sim sim_host "tljh-systemd" "integration-tests"
           ["A=1"; "B=2"] (fresh 0) "docker").
  reflexivity.
Defined.

(** The claim of C4 fails where a container is stopped: the inspect and the
    rm each probe the search path. *)
Lemma runtime_probed_by_each_command :
  let run := stop_container "x" (hosting ["x"] 0) in
  result run = Ret tt /\
  spawned (trace run) = [["docker"; "inspect"; "x"]; ["docker"; "rm"; "-f"; "x"]] /\
  probes (trace run) = ["docker"; "docker"] /\
  ~ (List.length (probes (trace run)) <= 1)%nat.
Proof. vm_compute. repeat split. lia. Qed.

(** C9 where no runtime is on the search path: the error of the resolution
    leaves the probe at once. *)
Lemma check_container_ready_no_runtime :
  check_container_ready_loop 1 "x" 60 0 bare
  = (Raise no_runtime, final (poll_try "x" bare), trace (poll_try "x" bare)) /\
  let run := check_container_ready 1 "x" 60 bare in
  run = (Raise no_runtime, final (poll_try "x" bare), EvTime :: trace (poll_try "x" bare)) /\
  Forall (fun cmd => tl cmd = liveness_args "x") (spawned (trace run)) /\
  (attempts "x" (trace run) <= 1)%nat /\
  slept (trace run) = [].
Proof.
  apply (@check_container_ready_other_exception sim sim_host "x" 60 0 0 bare no_runtime).
  - reflexivity.
  - reflexivity.
Defined.

(** C2 on the host where no container answers, with a timeout of 10
    seconds. *)
Lemma check_container_ready_bounded_dead :
  let run := check_container_ready 5 "x" 10 (0 : Z) in
  (attempts "x" (trace run) <= ceil_div5 10 + 1)%nat /\
  exists e,
    result run = Raise e /\ is_CalledProcessError e = false /\
    (diagnostics_return "x" -> e = not_ready "x").
Proof.
  apply (@check_container_ready_bounded Z dead_host "x" 10).
  - intros w. eexists _, _, _. reflexivity.
  - intros capture kw cmd w. unfold time_, spawn, dead_host, snd. lia.
  - intros secs w. unfold time_, sleep, dead_host. lia.
  - lia.
  - vm_compute. lia.
Defined.

(** The claim of C2 fails there: with a timeout of 10 seconds the probe
    starts the liveness command three times, not twice, before it raises. *)
Lemma check_container_ready_three_attempts :
  let run := check_container_ready 5 "x" 10 (0 : Z) in
  result run = Raise (not_ready "x") /\
  attempts "x" (trace run) = 3%nat /\
  slept (trace run) = [5; 5] /\
  attempts "x" (trace run) <> 2%nat.
Proof. vm_compute. repeat split. discriminate. Qed.

(** C6 where the logs cannot be read. *)
Lemma run_test_aborts_on_unreadable_logs :
  let act := step_action 30 "tljh-systemd" "t1" (Some "") ["a.py"] "" "" in
  let w4 := final (run_steps act [StopStep; RunStep; ReadyStep; CopyStep] unreadable_logs) in
  let t4 := trace (run_steps act [StopStep; RunStep; ReadyStep; CopyStep] unreadable_logs) in
  let logs := container_check_output ["logs"; "t1"] no_kwargs w4 in
  run_test 30 "tljh-systemd" "t1" (Some "") ["a.py"] "" "" unreadable_logs
  = (Raise (CalledProcessError 1 ["docker"; "logs"; "t1"]
              (Some (text "Error: cannot read the logs"))),
     final logs,
     (t4 ++ EvPrint (PStr ("--- Start of logs from the container: " ++ "t1"))
         :: trace logs)%list).
Proof.
  intros act w4 t4 logs.
  apply (@run_test_aborts_on_logs_failure sim sim_host 30 "tljh-systemd" "t1" (Some "")
           ["a.py"] "" "" unreadable_logs w4 t4).
  - vm_compute. reflexivity.
  - vm_compute. reflexivity.
Defined.

(** The claim of C6 fails there: the logs command exits with a nonzero
    code, the run raises its error, and the logs command is the last it
    starts: no installer, no suite. *)
Lemma run_test_logs_failure_is_fatal :
  let run := run_test 30 "tljh-systemd" "t1" (Some "") ["a.py"] "" "" unreadable_logs in
  result run = Raise (CalledProcessError 1 ["docker"; "logs"; "t1"]
                        (Some (text "Error: cannot read the logs"))) /\
  map subcommand (spawned (trace run)) = ["inspect"; "run"; "exec"; "cp"; "cp"; "logs"].
Proof. vm_compute. split; reflexivity. Qed.

(** ** Further properties of the script *)

Section Further.

Context {W : Type} {host : Host W}.

(** *** Resolution and single commands *)

Lemma container_runtime_cases (w : W) :
  container_runtime w = (Ret "docker", w, [EvWhich "docker"]) \/
  container_runtime w = (Ret "podman", w, [EvWhich "docker"; EvWhich "podman"]) \/
  container_runtime w = (Raise no_runtime, w, [EvWhich "docker"; EvWhich "podman"]).
Proof.
  unfold container_runtime, runtimes, container_runtime_for, bind, shutil_which, ret, raise.
  destruct (truthy_opt (which "docker" w)); [left; reflexivity|].
  destruct (truthy_opt (which "podman" w)); [right; left | right; right]; reflexivity.
Qed.

(** X1. Docker is preferred: it is chosen whenever it is on the search
    path, and then podman is not even looked for; podman is chosen only
    when docker is missing; with neither, the error names both, after both
    were looked for. The host is left as it was. *)
Theorem container_runtime_preference (w : W) :
  container_runtime w =
    if truthy_opt (which "docker" w)
    then (Ret "docker", w, [EvWhich "docker"])
    else if truthy_opt (which "podman" w)
    then (Ret "podman", w, [EvWhich "docker"; EvWhich "podman"])
    else (Raise (RuntimeError "No container runtime found, tried: docker podman"), w,
          [EvWhich "docker"; EvWhich "podman"]).
Proof.
  unfold container_runtime, runtimes, container_runtime_for, bind, shutil_which, ret, raise.
  destruct (truthy_opt (which "docker" w)); [reflexivity|].
  destruct (truthy_opt (which "podman" w)); reflexivity.
Qed.

(** With a runtime resolved, [container_run] starts the one command
    [rt :: args], not captured. *)
Lemma container_run_resolved (args : list string) (kw : kwargs) (w : W) rt :
  result (container_runtime w) = Ret rt ->
  container_run args kw w =
    (completed (rt :: args) kw (fst (spawn false kw (rt :: args) w)),
     snd (spawn false kw (rt :: args) w),
     (trace (container_runtime w)
        ++ [EvPrint (PRunning (rt :: args) kw); EvSpawn (rt :: args) false kw])%list).
Proof.
  intros Hrt. unfold container_run.
  erewrite bind_Ret
    by (rewrite (run_eta (container_runtime w)), Hrt, container_runtime_final; reflexivity).
  unfold subprocess_run, popen, print, bind, ret, raise, completed, result, final, trace.
  cbn [app fst snd].
  destruct (spawn false kw (rt :: args) w) as [[code out | reason] w1]; cbn [fst snd].
  - destruct (kw_check kw && negb (code =? 0)); cbn [app]; rewrite ?app_nil_r; reflexivity.
  - reflexivity.
Qed.

Lemma container_run_unresolved (args : list string) (kw : kwargs) (w : W) e :
  result (container_runtime w) = Raise e ->
  container_run args kw w = (Raise e, w, trace (container_runtime w)).
Proof.
  intros Hrt. unfold container_run. apply bind_Raise.
  rewrite (run_eta (container_runtime w)), Hrt, container_runtime_final. reflexivity.
Qed.

Lemma container_check_output_unresolved (args : list string) (kw : kwargs) (w : W) e :
  result (container_runtime w) = Raise e ->
  container_check_output args kw w = (Raise e, w, trace (container_runtime w)).
Proof.
  intros Hrt. unfold container_check_output. apply bind_Raise.
  rewrite (run_eta (container_runtime w)), Hrt, container_runtime_final. reflexivity.
Qed.

(** X2. [run_container_command] returns exactly when the command run in
    the container exits with code 0. Any other code is raised as a
    [CalledProcessError] that carries the code and the command line but no
    output, for the child is not captured. *)
Theorem run_container_command_checks_exit_code (container_name cmd rt : string)
    (w w1 : W) (code : Z) (out : bytes) :
  let argv := [rt; "exec"; "-t"; container_name; "/bin/bash"; "-c"; cmd] in
  result (container_runtime w) = Ret rt ->
  spawn false check_True argv w = (Exited code out, w1) ->
  run_container_command container_name cmd w
  = (if code =? 0 then Ret tt else Raise (CalledProcessError code argv None),
     w1,
     (trace (container_runtime w)
        ++ [EvPrint (PRunning argv check_True); EvSpawn argv false check_True])%list).
Proof.
  intros argv Hrt Hsp. unfold run_container_command. rewrite bind_const_ret.
  rewrite (container_run_resolved _ _ _ Hrt). fold argv. rewrite Hsp.
  unfold result, final, trace, completed. cbn [fst snd kw_check check_True andb].
  destruct (code =? 0); reflexivity.
Qed.

(** X3. [show_logs] reads the journal first; when that command exits with
    a nonzero code, its error is raised and the status of the services is
    not asked for. *)
Theorem show_logs_stops_at_journal_failure (container_name rt : string)
    (w w1 : W) (code : Z) (out : bytes) :
  let argv := [rt; "exec"; "-t"; container_name; "/bin/bash"; "-c";
               "journalctl --no-pager"] in
  result (container_runtime w) = Ret rt ->
  spawn false check_True argv w = (Exited code out, w1) ->
  code <> 0 ->
  result (show_logs container_name w) = Raise (CalledProcessError code argv None) /\
  final (show_logs container_name w) = w1 /\
  spawned (trace (show_logs container_name w)) = [argv].
Proof.
  intros argv Hrt Hsp Hcode.
  assert (E : run_container_command container_name "journalctl --no-pager" w
              = (Raise (CalledProcessError code argv None), w1,
                 (trace (container_runtime w)
                    ++ [EvPrint (PRunning argv check_True);
                        EvSpawn argv false check_True])%list)).
  { unfold run_container_command. rewrite bind_const_ret.
    rewrite (container_run_resolved _ _ _ Hrt). fold argv. rewrite Hsp.
    unfold result, final, trace, completed. cbn [fst snd kw_check check_True andb].
    destruct (code =? 0) eqn:Hz; [apply Z.eqb_eq in Hz; contradiction | reflexivity]. }
  unfold show_logs. erewrite bind_Raise by exact E.
  split; [reflexivity|]. split; [reflexivity|].
  unfold trace at 1. cbn [snd].
  rewrite spawned_app, container_runtime_spawned. reflexivity.
Qed.

(** X4. When the container exists, so that the inspect exits with code 0,
    [stop_container] goes on to [rm -f]; it returns exactly when that
    command exits with code 0, and a failure of the rm is raised, not
    swallowed. *)
Theorem stop_container_present (container_name rt rt1 : string) (w w1 w2 : W)
    (out out1 : bytes) (code : Z) :
  result (container_runtime w) = Ret rt ->
  spawn true stderr_STDOUT [rt; "inspect"; container_name] w = (Exited 0 out, w1) ->
  result (container_runtime w1) = Ret rt1 ->
  spawn true no_kwargs [rt1; "rm"; "-f"; container_name] w1 = (Exited code out1, w2) ->
  result (stop_container container_name w)
  = (if code =? 0 then Ret tt
     else Raise (CalledProcessError code [rt1; "rm"; "-f"; container_name] (Some out1))) /\
  final (stop_container container_name w) = w2 /\
  spawned (trace (stop_container container_name w))
  = [[rt; "inspect"; container_name]; [rt1; "rm"; "-f"; container_name]].
Proof.
  intros Hrt Hsp Hrt1 Hsp1.
  pose proof (container_check_output_resolved ["inspect"; container_name]
                stderr_STDOUT w Hrt) as E.
  rewrite Hsp in E. cbn [fst snd checked] in E.
  pose proof (container_check_output_resolved ["rm"; "-f"; container_name]
                no_kwargs w1 Hrt1) as E1.
  rewrite Hsp1 in E1. cbn [fst snd] in E1.
  assert (Etry : try_except_CalledProcessError
                   (container_check_output ["inspect"; container_name] stderr_STDOUT ;;
                    ret false)
                   (fun _ => ret true) w
                 = (Ret false, w1,
                    (trace (container_runtime w)
                       ++ [EvPrint (PRunning [rt; "inspect"; container_name] stderr_STDOUT);
                           EvSpawn [rt; "inspect"; container_name] true stderr_STDOUT])%list)).
  { unfold try_except_CalledProcessError. rewrite bind_const_ret, E. reflexivity. }
  unfold stop_container. erewrite bind_Ret by exact Etry. cbv beta iota.
  rewrite bind_const_ret, E1.
  pose proof (container_runtime_spawned w) as H0.
  pose proof (container_runtime_spawned w1) as H1.
  unfold result, final, trace in *. cbn [fst snd].
  rewrite !spawned_app, H0, H1.
  destruct code; cbn [checked Z.eqb app spawned]; repeat split.
Qed.

(** X5. Without build arguments, absent or an empty list alike,
    [build_systemd_image] starts the plain build command, with no flag
    after the source path. *)
Theorem build_systemd_image_no_build_args (image_name source rt : string)
    (build_args : option (list string)) (w : W) :
  result (container_runtime w) = Ret rt ->
  build_args = None \/ build_args = Some [] ->
  spawned (trace (build_systemd_image image_name source build_args w))
  = [[rt; "build"; "-t=" ++ image_name; source]].
Proof.
  intros Hrt Hargs. unfold build_systemd_image. rewrite bind_const_ret.
  unfold trace at 1. cbn [snd].
  rewrite (container_check_output_spawned _ _ _ Hrt).
  destruct Hargs as [-> | ->]; reflexivity.
Qed.

(** X7. With neither runtime on the search path a test run ends at once:
    [run_test] raises the error of the resolution, the inspect of its first
    step is not swallowed as a missing container, and no process is
    started. *)
Theorem run_test_without_runtime (fuel : nat) (image_name test_name : string)
    (bootstrap_pip_spec : option string) (test_files : list string)
    (upgrade_from installer_args : string) (w : W) :
  truthy_opt (which "docker" w) = false ->
  truthy_opt (which "podman" w) = false ->
  run_test fuel image_name test_name bootstrap_pip_spec test_files
           upgrade_from installer_args w
  = (Raise no_runtime, w, [EvWhich "docker"; EvWhich "podman"]).
Proof.
  intros Hd Hp.
  assert (E : container_runtime w = (Raise no_runtime, w, [EvWhich "docker"; EvWhich "podman"])).
  { unfold container_runtime, runtimes, container_runtime_for, bind, shutil_which, ret, raise.
    rewrite Hd, Hp. reflexivity. }
  assert (Es : stop_container test_name w
               = (Raise no_runtime, w, [EvWhich "docker"; EvWhich "podman"])).
  { assert (Ec : container_check_output ["inspect"; test_name] stderr_STDOUT w
                 = (Raise no_runtime, w, [EvWhich "docker"; EvWhich "podman"])).
    { erewrite container_check_output_unresolved by (rewrite E; reflexivity).
      rewrite E. reflexivity. }
    unfold stop_container.
    apply bind_Raise. unfold try_except_CalledProcessError.
    erewrite bind_Raise by exact Ec. reflexivity. }
  unfold run_test. apply bind_Raise. exact Es.
Qed.

(** *** Properties of traces kept by every operation *)

Section TraceInvariant.

(** A property of traces that holds of the empty trace, of two traces put
    end to end, of any event that starts no process, and of a command with
    allowed arguments started right after its resolution and its print. *)
Variable Q : list event -> Prop.
Variable allowed : list string -> Prop.

Hypothesis Q_nil : Q [].
Hypothesis Q_app : forall t1 t2, Q t1 -> Q t2 -> Q (t1 ++ t2).
Hypothesis Q_other : forall ev, is_spawn ev = false -> Q [ev].
Hypothesis Q_docker : forall args capture kw,
  allowed args ->
  Q [EvWhich "docker"; EvPrint (PRunning ("docker" :: args) kw);
     EvSpawn ("docker" :: args) capture kw].
Hypothesis Q_podman : forall args capture kw,
  allowed args ->
  Q [EvWhich "docker"; EvWhich "podman"; EvPrint (PRunning ("podman" :: args) kw);
     EvSpawn ("podman" :: args) capture kw].

Lemma kept_bind (A B : Type) (m : M W A) (f : A -> M W B) :
  (forall w, Q (trace (m w))) ->
  (forall a w, Q (trace (f a w))) ->
  forall w, Q (trace (bind m f w)).
Proof.
  intros Hm Hf w. unfold bind. specialize (Hm w).
  destruct (m w) as [[[a | e |] w1] t1]; try exact Hm.
  specialize (Hf a w1). destruct (f a w1) as [[r2 w2] t2].
  apply Q_app; assumption.
Qed.

Lemma kept_try (A : Type) (m : M W A) (h : exn -> M W A) :
  (forall w, Q (trace (m w))) ->
  (forall e w, Q (trace (h e w))) ->
  forall w, Q (trace (try_except_CalledProcessError m h w)).
Proof.
  intros Hm Hh w. unfold try_except_CalledProcessError. specialize (Hm w).
  destruct (m w) as [[[a | e |] w1] t1]; try exact Hm.
  destruct (is_CalledProcessError e); [|exact Hm].
  specialize (Hh e w1). destruct (h e w1) as [[r2 w2] t2].
  apply Q_app; assumption.
Qed.

Lemma kept_print (p : printed) (w : W) : Q (trace (print p w)).
Proof. apply Q_other. reflexivity. Qed.

Lemma kept_bytes_decode (out : bytes) (w : W) : Q (trace (bytes_decode out w)).
Proof. unfold bytes_decode. destruct (decode out); apply Q_nil. Qed.

Lemma kept_unresolved : Q [EvWhich "docker"; EvWhich "podman"].
Proof.
  change (Q ([EvWhich "docker"] ++ [EvWhich "podman"])).
  apply Q_app; apply Q_other; reflexivity.
Qed.

Lemma kept_container_check_output (args : list string) (kw : kwargs) :
  allowed args -> forall w, Q (trace (container_check_output args kw w)).
Proof.
  intros Hargs w.
  destruct (container_runtime_cases w) as [E | [E | E]].
  - rewrite (@container_check_output_resolved _ _ args kw w "docker")
      by (rewrite E; reflexivity).
    rewrite E. apply Q_docker. exact Hargs.
  - rewrite (@container_check_output_resolved _ _ args kw w "podman")
      by (rewrite E; reflexivity).
    rewrite E. apply Q_podman. exact Hargs.
  - rewrite (@container_check_output_unresolved args kw w no_runtime)
      by (rewrite E; reflexivity).
    rewrite E. apply kept_unresolved.
Qed.

Lemma kept_container_run (args : list string) (kw : kwargs) :
  allowed args -> forall w, Q (trace (container_run args kw w)).
Proof.
  intros Hargs w.
  destruct (container_runtime_cases w) as [E | [E | E]].
  - rewrite (@container_run_resolved args kw w "docker") by (rewrite E; reflexivity).
    rewrite E. apply Q_docker. exact Hargs.
  - rewrite (@container_run_resolved args kw w "podman") by (rewrite E; reflexivity).
    rewrite E. apply Q_podman. exact Hargs.
  - rewrite (@container_run_unresolved args kw w no_runtime) by (rewrite E; reflexivity).
    rewrite E. apply kept_unresolved.
Qed.

Lemma kept_poll_diagnose (args : list string) :
  allowed args -> forall w, Q (trace (poll_diagnose args w)).
Proof.
  intros Hargs. unfold poll_diagnose. apply kept_try.
  - apply kept_bind; [apply kept_container_check_output; exact Hargs|]. intros out.
    apply kept_bind; [apply kept_bytes_decode|]. intros s w. apply kept_print.
  - intros e w. apply kept_print.
Qed.

Lemma kept_check_container_ready (fuel : nat) (container_name : string) (timeout : Z) :
  allowed (liveness_args container_name) ->
  allowed ["inspect"; container_name] ->
  allowed ["logs"; container_name] ->
  forall w, Q (trace (check_container_ready fuel container_name timeout w)).
Proof.
  intros Hlive Hinspect Hlogs. unfold check_container_ready.
  apply kept_bind; [intros w; apply Q_other; reflexivity|]. intros now.
  induction fuel as [|fuel IH]; cbn [check_container_ready_loop].
  - intros w. apply Q_nil.
  - apply kept_bind.
    + apply kept_try.
      * unfold poll_try.
        apply kept_bind; [apply kept_container_check_output; exact Hlive|]. intros out.
        apply kept_bind; [apply kept_bytes_decode|]. intros s.
        apply kept_bind; [apply kept_print|]. intros _ w. apply Q_nil.
      * intros e. unfold poll_except.
        apply kept_bind; [apply kept_print|]. intros _.
        apply kept_bind; [apply kept_poll_diagnose; exact Hinspect|]. intros _.
        apply kept_bind; [apply kept_poll_diagnose; exact Hlogs|]. intros _.
        apply kept_bind; [intros w; apply Q_other; reflexivity|]. intros t.
        destruct (t - now >? 1000 * timeout); [intros w; apply Q_nil|].
        apply kept_bind; [intros w; apply Q_other; reflexivity|].
        intros _ w. apply Q_nil.
    + intros [|]; [intros w; apply Q_nil | exact IH].
Qed.

(** The operations that start whatever they are asked to. *)
Hypothesis allowed_all : forall args, allowed args.

Lemma kept_run_container_command (container_name cmd : string) (w : W) :
  Q (trace (run_container_command container_name cmd w)).
Proof.
  revert w. unfold run_container_command.
  apply kept_bind; [apply kept_container_run; apply allowed_all|].
  intros _ w. apply Q_nil.
Qed.

Lemma kept_copy_to_container (container_name src_path dest_path : string) (w : W) :
  Q (trace (copy_to_container container_name src_path dest_path w)).
Proof.
  revert w. unfold copy_to_container.
  apply kept_bind; [apply kept_container_check_output; apply allowed_all|].
  intros _ w. apply Q_nil.
Qed.

Lemma kept_run_systemd_image (image_name container_name : string)
    (bootstrap_pip_spec : option string) (w : W) :
  Q (trace (run_systemd_image image_name container_name bootstrap_pip_spec w)).
Proof.
  revert w. unfold run_systemd_image.
  apply kept_bind; [apply kept_container_check_output; apply allowed_all|].
  intros _ w. apply Q_nil.
Qed.

Lemma kept_build_systemd_image (image_name source : string)
    (build_args : option (list string)) (w : W) :
  Q (trace (build_systemd_image image_name source build_args w)).
Proof.
  revert w. unfold build_systemd_image.
  apply kept_bind; [apply kept_container_check_output; apply allowed_all|].
  intros _ w. apply Q_nil.
Qed.

Lemma kept_stop_container (container_name : string) (w : W) :
  Q (trace (stop_container container_name w)).
Proof.
  revert w. unfold stop_container. apply kept_bind.
  - apply kept_try.
    + apply kept_bind; [apply kept_container_check_output; apply allowed_all|].
      intros _ w. apply Q_nil.
    + intros _ w. apply Q_nil.
  - intros [|]; [intros w; apply Q_nil|].
    apply kept_bind; [apply kept_container_check_output; apply allowed_all|].
    intros _ w. apply Q_nil.
Qed.

Lemma kept_show_logs (container_name : string) (w : W) :
  Q (trace (show_logs container_name w)).
Proof.
  revert w. unfold show_logs.
  apply kept_bind; [apply kept_run_container_command|].
  intros _. apply kept_run_container_command.
Qed.

Lemma kept_run_test (fuel : nat) (image_name test_name : string)
    (bootstrap_pip_spec : option string) (test_files : list string)
    (upgrade_from installer_args : string) (w : W) :
  Q (trace (run_test fuel image_name test_name bootstrap_pip_spec test_files
                     upgrade_from installer_args w)).
Proof.
  revert w. unfold run_test.
  repeat (apply kept_bind;
          [ first [ apply kept_stop_container
                  | apply kept_run_systemd_image
                  | apply kept_check_container_ready; apply allowed_all
                  | apply kept_copy_to_container
                  | apply kept_print
                  | apply kept_bytes_decode
                  | apply kept_container_check_output; apply allowed_all
                  | apply kept_run_container_command
                  | destruct (truthy upgrade_from);
                    [ apply kept_run_container_command | intros w; apply Q_nil ] ]
          | intros ? ]).
  apply kept_run_container_command.
Qed.

End TraceInvariant.


(** *** Every process is resolved for and announced *)

Lemma orderly_app (t1 t2 : list event) : orderly t1 -> orderly t2 -> orderly (t1 ++ t2).
Proof.
  intros H1 H2. induction H1; cbn [app].
  - exact H2.
  - apply orderly_docker. exact IHorderly.
  - apply orderly_podman. exact IHorderly.
  - apply orderly_other; assumption.
Qed.

(** In an orderly trace, the two events before the start of a process are
    the probe that found its runtime and the print of its command line. *)
Lemma orderly_spawn (t : list event) :
  orderly t ->
  forall pre cmd capture kw post,
    t = (pre ++ EvSpawn cmd capture kw :: post)%list ->
    exists before rt args,
      cmd = rt :: args /\ (rt = "docker" \/ rt = "podman") /\
      pre = (before ++ [EvWhich rt; EvPrint (PRunning cmd kw)])%list.
Proof.
  induction 1 as [| args c k rest Hrest IH | args c k rest Hrest IH | ev rest Hev Hrest IH];
    intros pre cmd capture kw post Ht.
  - destruct pre; discriminate.
  - destruct pre as [|e1 [|e2 [|e3 pre]]]; try discriminate.
    + inversion Ht; subst.
      exists [], "docker", args. repeat split; auto.
    + inversion Ht as [[He1 He2 He3 Ht']]; subst.
      destruct (IH _ _ _ _ _ eq_refl) as (before & rt & args' & Hc & Hr & ->).
      exists (EvWhich "docker" :: EvPrint (PRunning ("docker" :: args) k)
                :: EvSpawn ("docker" :: args) c k :: before), rt, args'.
      repeat split; auto.
  - destruct pre as [|e1 [|e2 [|e3 [|e4 pre]]]]; try discriminate.
    + inversion Ht; subst.
      exists [EvWhich "docker"], "podman", args. repeat split; auto.
    + inversion Ht as [[He1 He2 He3 He4 Ht']]; subst.
      destruct (IH _ _ _ _ _ eq_refl) as (before & rt & args' & Hc & Hr & ->).
      exists (EvWhich "docker" :: EvWhich "podman"
                :: EvPrint (PRunning ("podman" :: args) k)
                :: EvSpawn ("podman" :: args) c k :: before), rt, args'.
      repeat split; auto.
  - destruct pre as [|e1 pre].
    + inversion Ht; subst. discriminate.
    + inversion Ht as [[He1 Ht']]; subst.
      destruct (IH _ _ _ _ _ eq_refl) as (before & rt & args' & Hc & Hr & ->).
      exists (e1 :: before), rt, args'. repeat split; auto.
Qed.

Ltac orderly_by kept :=
  apply kept with (allowed := fun _ : list string => True);
  [ apply orderly_nil
  | apply orderly_app
  | intros ev Hev; apply orderly_other; [exact Hev | apply orderly_nil]
  | intros; apply orderly_docker, orderly_nil
  | intros; apply orderly_podman, orderly_nil
  | auto ].

(** X8. Whatever a test run starts, in any of its steps, it has just
    resolved the runtime for and announced: the command line begins with
    docker or podman, and the two events before the start of the process
    are the search-path probe that found that runtime and the print of the
    very command line and keyword arguments. *)
Theorem run_test_processes_announced (fuel : nat) (image_name test_name : string)
    (bootstrap_pip_spec : option string) (test_files : list string)
    (upgrade_from installer_args : string) (w : W)
    (pre post : list event) (cmd : list string) (capture : bool) (kw : kwargs) :
  trace (run_test fuel image_name test_name bootstrap_pip_spec test_files
                  upgrade_from installer_args w)
  = (pre ++ EvSpawn cmd capture kw :: post)%list ->
  exists before rt args,
    cmd = rt :: args /\ (rt = "docker" \/ rt = "podman") /\
    pre = (before ++ [EvWhich rt; EvPrint (PRunning cmd kw)])%list.
Proof.
  intros Ht. eapply orderly_spawn; [|exact Ht]. orderly_by kept_run_test.
Qed.

(** *** The readiness probe only reads *)

(** X9. The readiness probe changes nothing in the runtime: every command
    it starts, however long it polls and however it ends, is the liveness
    command, the inspect or the logs of the container it waits for. *)
Theorem check_container_ready_only_reads (fuel : nat) (container_name : string)
    (timeout : Z) (w : W) :
  Forall (probe_command container_name)
         (spawned (trace (check_container_ready fuel container_name timeout w))).
Proof.
  apply kept_check_container_ready
    with (Q := fun t => Forall (probe_command container_name) (spawned t))
         (allowed := fun args => probe_command container_name ("" :: args)).
  - constructor.
  - intros t1 t2 H1 H2. rewrite spawned_app. apply Forall_app. auto.
  - intros ev Hev. destruct ev; try discriminate; constructor.
  - intros args capture kw Hargs. cbn [spawned]. constructor; [exact Hargs | constructor].
  - intros args capture kw Hargs. cbn [spawned]. constructor; [exact Hargs | constructor].
  - left. reflexivity.
  - right. left. reflexivity.
  - right. right. reflexivity.
Qed.

(** *** The command line *)

(** No namespace of the parser leads [main] to an argument of the wrong
    type. *)
Lemma main_well_typed (fuel : nat) (c : cmdline) :
  main fuel (namespace_of c) <> IllTyped (W := W).
Proof.
  destruct c as [| build_arg | | | | | installer_args upgrade_from bootstrap_pip_spec | ];
    try discriminate.
  - destruct build_arg; discriminate.
  - destruct bootstrap_pip_spec; discriminate.
Qed.

(** X10. The subcommand [start-container] cannot work: [main] reads
    [args.bootstrap_pip_spec], which the subparser of [start-container]
    does not declare, so an [AttributeError] is raised before anything is
    run; and it is the only command line on which [main] raises one. *)
Theorem main_attribute_error (fuel : nat) (c : cmdline) :
  (forall container_name,
      c = StartContainer container_name ->
      main fuel (namespace_of c) = AttributeError (W := W) "bootstrap_pip_spec") /\
  (forall name,
      main fuel (namespace_of c) = AttributeError (W := W) name ->
      exists container_name, c = StartContainer container_name).
Proof.
  split.
  - intros container_name ->. reflexivity.
  - intros name.
    destruct c as [| build_arg | | n | | | installer_args upgrade_from bootstrap_pip_spec | ];
      try discriminate.
    + destruct build_arg; discriminate.
    + intros _. exists n. reflexivity.
    + destruct bootstrap_pip_spec; discriminate.
Qed.

(** Given no subcommand, [main] does nothing: it returns without reading
    the search path, printing or starting a process. *)
Lemma main_without_subcommand (fuel : nat) (w : W) :
  exists m, main fuel (namespace_of NoSubcommand) = Calls m /\ m w = (Ret tt, w, []).
Proof. eexists. split; reflexivity. Qed.

(** X11. Whatever the command line, every process [main] starts is
    resolved for and announced as in a test run: its command line begins
    with docker or podman, and the two events before its start are the
    probe that found the runtime and the print of the command line. *)
Theorem main_processes_announced (fuel : nat) (c : cmdline) (m : M W unit) (w : W)
    (pre post : list event) (cmd : list string) (capture : bool) (kw : kwargs) :
  main fuel (namespace_of c) = Calls m ->
  trace (m w) = (pre ++ EvSpawn cmd capture kw :: post)%list ->
  exists before rt args,
    cmd = rt :: args /\ (rt = "docker" \/ rt = "podman") /\
    pre = (before ++ [EvWhich rt; EvPrint (PRunning cmd kw)])%list.
Proof.
  intros Hm Ht. eapply orderly_spawn; [|exact Ht]. clear Ht.
  destruct c as [| build_arg | n | n | n command | n src dest
                 | installer_args upgrade_from bootstrap_pip_spec test_name f fs | n ].
  - injection Hm as <-. apply orderly_nil.
  - destruct build_arg; injection Hm as <-; orderly_by kept_build_systemd_image.
  - injection Hm as <-. orderly_by kept_stop_container.
  - discriminate.
  - injection Hm as <-. orderly_by kept_run_container_command.
  - injection Hm as <-. orderly_by kept_copy_to_container.
  - destruct bootstrap_pip_spec; injection Hm as <-; orderly_by kept_run_test.
  - injection Hm as <-. orderly_by kept_show_logs.
Qed.


(** *** Polls, sleeps and rounds of the readiness probe *)

(** X12. The probe returns as soon as the liveness command exits with code
    0 and its output decodes, whatever the timeout, a negative one
    included: one command, no diagnostic read and no sleep. *)
Theorem check_container_ready_first_poll (fuel : nat) (container_name rt : string)
    (timeout : Z) (w w1 : W) (out : bytes) (s : string) :
  let argv := rt :: liveness_args container_name in
  result (container_runtime w) = Ret rt ->
  spawn true no_kwargs argv w = (Exited 0 out, w1) ->
  decode out = Some s ->
  check_container_ready (S fuel) container_name timeout w
  = (Ret tt, w1,
     EvTime :: (trace (container_runtime w)
                  ++ [EvPrint (PRunning argv no_kwargs); EvSpawn argv true no_kwargs;
                      EvPrint (PStr s)])%list).
Proof.
  intros argv Hrt Hsp Hdec.
  pose proof (container_check_output_resolved (liveness_args container_name)
                no_kwargs w Hrt) as E.
  fold argv in E. rewrite Hsp in E. cbn [fst snd checked] in E.
  assert (Etry : poll_try container_name w
                 = (Ret true, w1,
                    (trace (container_runtime w)
                       ++ [EvPrint (PRunning argv no_kwargs); EvSpawn argv true no_kwargs;
                           EvPrint (PStr s)])%list)).
  { unfold poll_try. fold (liveness_args container_name).
    erewrite bind_Ret by exact E.
    unfold bytes_decode. rewrite Hdec.
    unfold bind, ret, print, result, final, trace. cbn [fst snd app].
    rewrite <- app_assoc. reflexivity. }
  unfold check_container_ready, bind at 1, time_time.
  cbn [check_container_ready_loop]. unfold bind, try_except_CalledProcessError.
  rewrite Etry. unfold ret. cbn [app]. rewrite app_nil_r. reflexivity.
Qed.

(** What the [try] block of a poll comes to: it never sleeps; when it
    returns or raises a [CalledProcessError] it has started the liveness
    command once; and it never raises the error of the timeout. *)
Lemma poll_try_outcome (container_name : string) (w : W) :
  slept (trace (poll_try container_name w)) = [] /\
  match result (poll_try container_name w) with
  | Ret b => b = true /\ attempts container_name (trace (poll_try container_name w)) = 1%nat
  | Raise e =>
      (is_CalledProcessError e = true ->
       attempts container_name (trace (poll_try container_name w)) = 1%nat) /\
      e <> not_ready container_name
  | OutOfFuel => False
  end.
Proof.
  pose proof (container_check_output_post (liveness_args container_name) no_kwargs w) as H.
  unfold post in H.
  destruct (container_check_output (liveness_args container_name) no_kwargs w)
    as [[r w1] t1] eqn:E.
  unfold result, final, trace in H. cbn [fst snd] in H. destruct H as [Hsl Hcases].
  assert (Hone : forall rt, spawned t1 = [rt :: liveness_args container_name] ->
                            attempts container_name t1 = 1%nat).
  { intros rt Hs. unfold attempts. rewrite Hs. cbn [filter].
    rewrite is_liveness_liveness. reflexivity. }
  assert (Hraise : forall e, r = Raise e ->
            poll_try container_name w = (Raise e, w1, t1)).
  { intros e ->. unfold poll_try. fold (liveness_args container_name).
    apply bind_Raise. exact E. }
  assert (Hret : forall out, r = Ret out ->
            poll_try container_name w
            = match decode out with
              | Some s => (Ret true, w1, (t1 ++ [EvPrint (PStr s)])%list)
              | None => (Raise (UnicodeDecodeError out), w1, t1)
              end).
  { intros out ->. unfold poll_try. fold (liveness_args container_name).
    erewrite bind_Ret by exact E. unfold bytes_decode.
    destruct (decode out) as [s0|]; unfold bind, ret, raise, print, result, final, trace;
      cbn [fst snd app]; rewrite ?app_nil_r; reflexivity. }
  destruct Hcases as [(-> & _ & _) | (rt & _ & Hr & _ & Hs)].
  - rewrite (Hraise _ eq_refl). unfold result, trace. cbn [fst snd].
    split; [exact Hsl|]. split; discriminate.
  - specialize (Hone rt Hs).
    destruct (fst (spawn true no_kwargs (rt :: liveness_args container_name) w))
      as [[|c|c] out | reason]; cbn [checked] in Hr.
    + rewrite (Hret _ Hr). destruct (decode out) as [s0|]; unfold result, trace; cbn [fst snd].
      * rewrite slept_app, attempts_app, Hsl, Hone. repeat split.
      * split; [exact Hsl|]. split; discriminate.
    + rewrite (Hraise _ Hr). unfold result, trace. cbn [fst snd].
      split; [exact Hsl|]. split; [intros _; exact Hone | discriminate].
    + rewrite (Hraise _ Hr). unfold result, trace. cbn [fst snd].
      split; [exact Hsl|]. split; [intros _; exact Hone | discriminate].
    + rewrite (Hraise _ Hr). unfold result, trace. cbn [fst snd].
      split; [exact Hsl|]. split; discriminate.
Qed.

(** A diagnostic read starts no liveness command and never sleeps. *)
Lemma poll_diagnose_outcome (container_name : string) (args : list string) (w : W) :
  (forall rt, is_liveness container_name (rt :: args) = false) ->
  attempts container_name (trace (poll_diagnose args w)) = 0%nat /\
  slept (trace (poll_diagnose args w)) = [] /\
  result (poll_diagnose args w) <> OutOfFuel.
Proof.
  intros Hargs.
  pose proof (container_check_output_post args no_kwargs w) as [Hsl Hcases].
  unfold poll_diagnose, try_except_CalledProcessError, bind.
  destruct (container_check_output args no_kwargs w) as [[r w1] t1].
  unfold result, final, trace in *. cbn [fst snd] in *.
  assert (Ha : attempts container_name t1 = 0%nat).
  { unfold attempts.
    destruct Hcases as [(_ & _ & ->) | (rt & _ & _ & _ & ->)]; [reflexivity|].
    cbn [filter]. rewrite Hargs. reflexivity. }
  assert (Hfuel : r <> OutOfFuel).
  { destruct Hcases as [(-> & _) | (rt & _ & -> & _)]; [discriminate|].
    destruct (fst (spawn true no_kwargs (rt :: args) w)) as [[|c|c] out | reason];
      discriminate. }
  destruct r as [out | e |]; [| |congruence].
  - unfold bytes_decode. destruct (decode out) as [s0|]; unfold print, ret, raise;
      cbn [fst snd app is_CalledProcessError];
      rewrite ?app_nil_r, ?attempts_app, ?slept_app, ?Ha, ?Hsl;
      repeat split; try reflexivity; discriminate.
  - destruct (is_CalledProcessError e); unfold print; cbn [fst snd];
      rewrite ?app_nil_r, ?attempts_app, ?slept_app, ?Ha, ?Hsl;
      repeat split; try reflexivity; discriminate.
Qed.

(** The [except] block of a poll starts no liveness command; it sleeps
    five seconds, once, exactly when it lets the loop go round again. *)
Lemma poll_except_outcome (container_name : string) (timeout now : Z) (e : exn) (w : W) :
  attempts container_name (trace (poll_except container_name timeout now e w)) = 0%nat /\
  match result (poll_except container_name timeout now e w) with
  | Ret b => b = false /\
             slept (trace (poll_except container_name timeout now e w)) = [5]
  | Raise _ => slept (trace (poll_except container_name timeout now e w)) = []
  | OutOfFuel => False
  end.
Proof.
  unfold poll_except, bind, print, time_time, time_sleep, ret, raise.
  pose proof (@poll_diagnose_outcome container_name ["inspect"; container_name] w
                ltac:(reflexivity)) as (Ha1 & Hs1 & Hf1).
  destruct (poll_diagnose ["inspect"; container_name] w) as [[r1 w1] t1].
  unfold result, final, trace in *. cbn [fst snd] in *.
  destruct r1 as [[] | e1 |]; [| |congruence].
  2:{ cbn [fst snd]. rewrite attempts_app, slept_app, Ha1, Hs1. split; reflexivity. }
  pose proof (@poll_diagnose_outcome container_name ["logs"; container_name] w1
                ltac:(reflexivity)) as (Ha2 & Hs2 & Hf2).
  destruct (poll_diagnose ["logs"; container_name] w1) as [[r2 w2] t2].
  unfold result, final, trace in *. cbn [fst snd] in *.
  destruct r2 as [[] | e2 |]; [| |congruence].
  2:{ cbn [fst snd]. rewrite !attempts_app, !slept_app, Ha1, Hs1, Ha2, Hs2.
      split; reflexivity. }
  destruct (time_ w2 - now >? 1000 * timeout); cbn [fst snd];
    rewrite !attempts_app, !slept_app, Ha1, Hs1, Ha2, Hs2; repeat split.
Qed.

Lemma check_container_ready_loop_accounting (container_name : string) (timeout now : Z)
    (fuel : nat) :
  forall w,
    let run := check_container_ready_loop fuel container_name timeout now w in
    Forall (fun secs => secs = 5) (slept (trace run)) /\
    (result run = Ret tt \/ result run = Raise (not_ready container_name) ->
     attempts container_name (trace run) = S (List.length (slept (trace run)))).
Proof.
  induction fuel as [|fuel IH]; intros w; cbn zeta; cbn [check_container_ready_loop].
  - split; [constructor|]. intros [H | H]; discriminate.
  - pose proof (poll_try_outcome container_name w) as (Hsl & Hres).
    unfold bind, try_except_CalledProcessError.
    destruct (poll_try container_name w) as [[r1 w1] t1].
    unfold result, final, trace in Hsl, Hres. cbn [fst snd] in Hsl, Hres.
    destruct r1 as [b | e |]; [| |contradiction].
    + destruct Hres as (-> & Ha). unfold ret, result, trace. cbn [fst snd].
      rewrite app_nil_r, Hsl, Ha. split; [constructor | reflexivity].
    + destruct Hres as (Hcpe & Hne).
      destruct (is_CalledProcessError e) eqn:He.
      * specialize (Hcpe eq_refl).
        pose proof (poll_except_outcome container_name timeout now e w1) as (Ha2 & Hr2).
        destruct (poll_except container_name timeout now e w1) as [[r2 w2] t2].
        unfold result, final, trace in Ha2, Hr2. cbn [fst snd] in Ha2, Hr2.
        destruct r2 as [b | e2 |]; [| |contradiction].
        -- destruct Hr2 as (-> & Hs2).
           specialize (IH w2). cbn zeta in IH.
           destruct (check_container_ready_loop fuel container_name timeout now w2)
             as [[r3 w3] t3].
           unfold result, final, trace in *. cbn [fst snd] in *.
           destruct IH as (Hall & Hacc).
           rewrite !attempts_app, !slept_app, Hsl, Hs2, Hcpe, Ha2. cbn [app Datatypes.length].
           split; [constructor; [reflexivity | exact Hall]|].
           intros H. rewrite (Hacc H). lia.
        -- unfold result, final, trace. cbn [fst snd].
           rewrite attempts_app, slept_app, Hsl, Hr2, Hcpe, Ha2.
           split; [constructor | reflexivity].
      * unfold result, final, trace. cbn [fst snd]. rewrite Hsl.
        split; [constructor|]. intros [H | H]; [discriminate|].
        injection H as ->. contradiction.
Qed.

(** X13. The probe sleeps five seconds at a time and only between polls:
    whenever it ends by returning or by the error of the timeout, it has
    started the liveness command once more than it has slept. In
    particular it polls at least once before it gives up, however small
    the timeout. *)
Theorem check_container_ready_accounting (fuel : nat) (container_name : string)
    (timeout : Z) (w : W) :
  let run := check_container_ready fuel container_name timeout w in
  Forall (fun secs => secs = 5) (slept (trace run)) /\
  (result run = Ret tt \/ result run = Raise (not_ready container_name) ->
   attempts container_name (trace run) = S (List.length (slept (trace run)))).
Proof.
  cbn zeta. unfold check_container_ready, bind, time_time.
  pose proof (check_container_ready_loop_accounting container_name timeout (time_ w) fuel w)
    as H. cbn zeta in H.
  destruct (check_container_ready_loop fuel container_name timeout (time_ w) w)
    as [[r1 w1] t1].
  unfold result, final, trace in *. cbn [fst snd app slept] in *.
  unfold attempts in *. cbn [spawned]. exact H.
Qed.

(** X14. A failed poll whose diagnostic reads fail as well does not end
    the probe: when the liveness command, the inspect and the logs all
    exit with a nonzero code and the timeout has not passed, each error is
    printed, the probe sleeps five seconds and polls again. *)
Theorem failed_poll_goes_round (fuel : nat) (container_name : string)
    (timeout now : Z) (w : W) (e1 e2 e3 : exn) :
  let p := poll_try container_name w in
  let i := container_check_output ["inspect"; container_name] no_kwargs (final p) in
  let l := container_check_output ["logs"; container_name] no_kwargs (final i) in
  let rest := check_container_ready_loop fuel container_name timeout now
                (sleep 5 (final l)) in
  result p = Raise e1 -> is_CalledProcessError e1 = true ->
  result i = Raise e2 -> is_CalledProcessError e2 = true ->
  result l = Raise e3 -> is_CalledProcessError e3 = true ->
  time_ (final l) - now <= 1000 * timeout ->
  check_container_ready_loop (S fuel) container_name timeout now w
  = (result rest, final rest,
     (trace p ++ EvPrint (PExn e1)
        :: trace i ++ EvPrint (PExn e2)
        :: trace l ++ EvPrint (PExn e3)
        :: EvTime :: EvSleep 5 :: trace rest)%list).
Proof.
  intros p i l rest Hp H1 Hi H2 Hl H3 Htime.
  assert (Ei : poll_diagnose ["inspect"; container_name] (final p)
               = (Ret tt, final i, (trace i ++ [EvPrint (PExn e2)])%list)).
  { unfold poll_diagnose, try_except_CalledProcessError.
    erewrite bind_Raise by (fold i; rewrite (run_eta i), Hi; reflexivity).
    rewrite H2. reflexivity. }
  assert (El : poll_diagnose ["logs"; container_name] (final i)
               = (Ret tt, final l, (trace l ++ [EvPrint (PExn e3)])%list)).
  { unfold poll_diagnose, try_except_CalledProcessError.
    erewrite bind_Raise by (fold l; rewrite (run_eta l), Hl; reflexivity).
    rewrite H3. reflexivity. }
  assert (Hcmp : (time_ (final l) - now >? 1000 * timeout) = false).
  { rewrite Z.gtb_ltb. apply Z.ltb_ge. exact Htime. }
  assert (Eex : poll_except container_name timeout now e1 (final p)
                = (Ret false, sleep 5 (final l),
                   (EvPrint (PExn e1)
                      :: trace i ++ EvPrint (PExn e2)
                      :: trace l ++ EvPrint (PExn e3) :: [EvTime; EvSleep 5])%list)).
  { assert (Et : (t <- time_time ;;
                  if t - now >? 1000 * timeout
                  then raise (RuntimeError ("Container " ++ container_name
                                              ++ " hasn't started"))
                  else time_sleep 5 ;; ret false) (final l)
                 = (Ret false, sleep 5 (final l), [EvTime; EvSleep 5])).
    { unfold bind at 1, time_time. cbv beta iota. rewrite Hcmp. reflexivity. }
    unfold poll_except.
    erewrite bind_Ret by reflexivity.
    erewrite bind_Ret by exact Ei.
    erewrite bind_Ret by exact El.
    rewrite Et. unfold result, final, trace. cbn [fst snd app].
    rewrite <- !app_assoc. reflexivity. }
  cbn [check_container_ready_loop].
  unfold bind at 1, try_except_CalledProcessError.
  fold p. rewrite (run_eta p), Hp, H1, Eex.
  fold rest. rewrite (run_eta rest). cbn [fst snd result final trace].
  repeat (cbn [app]; rewrite <- app_assoc). cbn [app]. reflexivity.
Qed.

End Further.

(** ** The commands of a test run, in order *)

Section Order.

Context {W : Type} {host : Host W}.

Lemma issued_app (t1 t2 : list event) :
  issued (t1 ++ t2) = (issued t1 ++ issued t2)%list.
Proof. unfold issued. rewrite spawned_app, map_app. reflexivity. Qed.

Lemma issues_bind (A B : Type) (m : M W A) (f : A -> M W B)
    (full1 full2 : list (list string)) :
  issues m full1 -> (forall a, issues (f a) full2) ->
  issues (bind m f) (full1 ++ full2).
Proof.
  intros Hm Hf w. destruct (Hm w) as [[rest Hp] Hr]. unfold bind.
  destruct (m w) as [[[a | e |] w1] t1]; unfold result, final, trace in *; cbn [fst snd] in *.
  - specialize (Hr a eq_refl). destruct (Hf a w1) as [[rest2 Hp2] Hr2].
    destruct (f a w1) as [[r2 w2] t2]. unfold result, final, trace in *. cbn [fst snd] in *.
    rewrite issued_app, Hr. split.
    + exists rest2. rewrite <- app_assoc, Hp2. reflexivity.
    + intros b Hb. rewrite (Hr2 b Hb). reflexivity.
  - split; [|discriminate]. exists (rest ++ full2)%list. rewrite app_assoc, Hp. reflexivity.
  - split; [|discriminate]. exists (rest ++ full2)%list. rewrite app_assoc, Hp. reflexivity.
Qed.

Lemma issues_bind_eq (A B : Type) (m : M W A) (f : A -> M W B)
    (full1 full2 full : list (list string)) :
  issues m full1 -> (forall a, issues (f a) full2) ->
  full = (full1 ++ full2)%list ->
  issues (bind m f) full.
Proof. intros Hm Hf ->. apply issues_bind; assumption. Qed.

Lemma issues_silent (A : Type) (m : M W A) :
  (forall w, spawned (trace (m w)) = []) -> issues m [].
Proof.
  intros H w. unfold issued. rewrite H. split; [exists []; reflexivity | reflexivity].
Qed.

Lemma issues_print (p : printed) : issues (print p : M W unit) [].
Proof. apply issues_silent. reflexivity. Qed.

Lemma issues_ret (A : Type) (a : A) : issues (ret a : M W A) [].
Proof. apply issues_silent. reflexivity. Qed.

Lemma issues_bytes_decode (out : bytes) : issues (bytes_decode out : M W string) [].
Proof. apply issues_silent. intros w. unfold bytes_decode. destruct (decode out); reflexivity. Qed.

Lemma issues_container_check_output (args : list string) (kw : kwargs) :
  issues (container_check_output args kw) [args].
Proof.
  intros w. pose proof (container_check_output_post args kw w) as [_ H].
  destruct H as [(Hr & _ & Hs) | (rt & _ & _ & _ & Hs)]; unfold issued; rewrite Hs.
  - split; [exists [args]; reflexivity|]. intros a Ha. rewrite Hr in Ha. discriminate.
  - split; [exists []; reflexivity | reflexivity].
Qed.

Lemma issues_container_run (args : list string) (kw : kwargs) :
  issues (container_run args kw) [args].
Proof.
  intros w. destruct (container_runtime_cases w) as [E | [E | E]].
  - rewrite (@container_run_resolved _ _ args kw w "docker") by (rewrite E; reflexivity).
    rewrite E. split; [exists []; reflexivity | reflexivity].
  - rewrite (@container_run_resolved _ _ args kw w "podman") by (rewrite E; reflexivity).
    rewrite E. split; [exists []; reflexivity | reflexivity].
  - rewrite (@container_run_unresolved _ _ args kw w no_runtime) by (rewrite E; reflexivity).
    rewrite E. split; [exists [args]; reflexivity | discriminate].
Qed.

(** Discarding the value of a command changes nothing of what it starts. *)
Lemma issues_discard (A B : Type) (m : M W A) (b : B) (full : list (list string)) :
  issues m full -> issues (bind m (fun _ => ret b)) full.
Proof.
  intros Hm w. destruct (Hm w) as [Hp Hr]. rewrite bind_const_ret.
  unfold result at 1, trace. cbn [fst snd]. split; [exact Hp|].
  intros b' Hb. destruct (result (m w)) as [a | e |] eqn:E; try discriminate.
  apply (Hr a). reflexivity.
Qed.

Lemma issues_run_container_command (container_name cmd : string) :
  issues (run_container_command container_name cmd) [exec_args container_name cmd].
Proof. unfold run_container_command. apply issues_discard, issues_container_run. Qed.

Lemma issues_copy_to_container (container_name src_path dest_path : string) :
  issues (copy_to_container container_name src_path dest_path)
         [["cp"; src_path; container_name ++ ":" ++ dest_path]].
Proof. unfold copy_to_container. apply issues_discard, issues_container_check_output. Qed.

Lemma issues_run_systemd_image (image_name container_name : string)
    (bootstrap_pip_spec : option string) :
  issues (run_systemd_image image_name container_name bootstrap_pip_spec)
         [run_args image_name container_name bootstrap_pip_spec].
Proof.
  unfold run_systemd_image, run_args.
  destruct bootstrap_pip_spec as [[|c s]|];
    apply issues_discard, issues_container_check_output.
Qed.

(** The steps after the readiness wait start the later commands, in
    order. *)
Lemma issues_later (fuel : nat) (image_name test_name : string)
    (bootstrap_pip_spec : option string) (test_files : list string)
    (upgrade_from installer_args : string) :
  issues (run_steps (step_action fuel image_name test_name bootstrap_pip_spec test_files
                                 upgrade_from installer_args)
            ([CopyStep; LogsStep]
               ++ (if truthy upgrade_from then [UpgradeStep] else [])
               ++ [InstallStep; DepsStep; FreezeStep; SuiteStep]))
         (later_args test_name test_files upgrade_from installer_args).
Proof.
  assert (Hcopy : issues (step_action fuel image_name test_name bootstrap_pip_spec test_files
                            upgrade_from installer_args CopyStep)
            ([["cp"; os_path_join source_path "bootstrap/."; test_name ++ ":" ++ "/srv/src"]]
               ++ [["cp"; os_path_join source_path "integration-tests/";
                    test_name ++ ":" ++ "/srv/src"]])).
  { cbn [step_action]. apply issues_bind; [apply issues_copy_to_container|].
    intros _. apply issues_copy_to_container. }
  assert (Hlogs : issues (step_action fuel image_name test_name bootstrap_pip_spec test_files
                            upgrade_from installer_args LogsStep)
            ([] ++ [["logs"; test_name]] ++ [] ++ [] ++ [])).
  { cbn [step_action]. apply issues_bind; [apply issues_print|]. intros _.
    apply issues_bind; [apply issues_container_check_output|]. intros out.
    apply issues_bind; [apply issues_bytes_decode|]. intros s.
    apply issues_bind; [apply issues_print|]. intros _. apply issues_print. }
  unfold later_args.
  destruct (truthy upgrade_from); cbn [app run_steps];
    repeat (eapply issues_bind_eq;
            [ first [ exact Hcopy | exact Hlogs | apply issues_run_container_command ]
            | intros _ | ]);
    try apply issues_ret; reflexivity.
Qed.

(** What [stop_container] starts: nothing when no runtime is found, else
    the inspect, and the rm after it when the inspect returned; it does
    not return without having started the inspect. *)
Lemma stop_container_issued (container_name : string) (w : W) :
  let x := stop_container container_name w in
  (issued (trace x) = [] \/
   issued (trace x) = [["inspect"; container_name]] \/
   issued (trace x) = [["inspect"; container_name]; ["rm"; "-f"; container_name]]) /\
  (result x = Ret tt -> issued (trace x) <> []).
Proof.
  cbn zeta.
  pose proof (container_check_output_post ["inspect"; container_name] stderr_STDOUT w)
    as [_ Hcases].
  destruct (container_check_output ["inspect"; container_name] stderr_STDOUT w)
    as [[r1 w1] t1] eqn:E.
  unfold result, final, trace in Hcases. cbn [fst snd] in Hcases.
  assert (H1 : r1 = Raise no_runtime /\ issued t1 = [] \/
               issued t1 = [["inspect"; container_name]] /\ r1 <> OutOfFuel).
  { destruct Hcases as [(-> & _ & Hs) | (rt & _ & -> & _ & Hs)]; unfold issued; rewrite Hs.
    - left. auto.
    - right. split; [reflexivity|].
      destruct (fst (spawn true stderr_STDOUT (rt :: ["inspect"; container_name]) w))
        as [[|c|c] out | reason]; discriminate. }
  clear Hcases.
  assert (Etry : try_except_CalledProcessError
                   (container_check_output ["inspect"; container_name] stderr_STDOUT ;;
                    ret false)
                   (fun _ => ret true) w
                 = match r1 with
                   | Ret _ => (Ret false, w1, t1)
                   | Raise e => if is_CalledProcessError e then (Ret true, w1, t1)
                                else (Raise e, w1, t1)
                   | OutOfFuel => (OutOfFuel, w1, t1)
                   end).
  { unfold try_except_CalledProcessError. rewrite bind_const_ret, E.
    unfold result, final, trace. cbn [fst snd].
    destruct r1 as [out | e |]; try reflexivity.
    destruct (is_CalledProcessError e); unfold ret; rewrite ?app_nil_r; reflexivity. }
  unfold stop_container.
  destruct H1 as [(-> & H1) | (H1 & Hfuel)].
  - erewrite bind_Raise by exact Etry. unfold result, trace. cbn [fst snd].
    rewrite H1. split; [auto | first [discriminate | intros _; discriminate]].
  - destruct r1 as [out | e |]; [| |congruence].
    + erewrite bind_Ret by exact Etry. cbv beta iota.
      destruct (issues_container_check_output ["rm"; "-f"; container_name] no_kwargs w1)
        as [[rest Hp] _].
      rewrite bind_const_ret.
      destruct (container_check_output ["rm"; "-f"; container_name] no_kwargs w1)
        as [[r2 w2] t2].
      unfold result, final, trace in *. cbn [fst snd] in *.
      rewrite issued_app, H1.
      destruct (issued t2) as [|a [|b l]]; cbn [app] in *.
      * split; [auto | intros _; discriminate].
      * injection Hp as <- _. split; [auto | intros _; discriminate].
      * destruct l; discriminate.
    + destruct (is_CalledProcessError e).
      * erewrite bind_Ret by exact Etry. unfold ret, result, trace. cbn [fst snd].
        rewrite app_nil_r, H1. split; [auto | first [discriminate | intros _; discriminate]].
      * erewrite bind_Raise by exact Etry. unfold result, trace. cbn [fst snd].
        rewrite H1. split; [auto | first [discriminate | intros _; discriminate]].
Qed.

Lemma poll_try_returned (container_name : string) (w : W) (b : bool) :
  result (poll_try container_name w) = Ret b ->
  issued (trace (poll_try container_name w)) = [liveness_args container_name].
Proof.
  intros Hr.
  pose proof (poll_try_post container_name w) as (_ & Hsp & _ & _).
  unfold issued. rewrite Hsp.
  destruct (issues_container_check_output (liveness_args container_name) no_kwargs w)
    as [_ Hret].
  destruct (container_check_output (liveness_args container_name) no_kwargs w)
    as [[[out | e |] w1] t1] eqn:E.
  - apply (Hret out). reflexivity.
  - unfold poll_try in Hr. fold (liveness_args container_name) in Hr.
    erewrite bind_Raise in Hr by exact E. discriminate.
  - unfold poll_try in Hr. fold (liveness_args container_name) in Hr.
    erewrite bind_OutOfFuel in Hr by exact E. discriminate.
Qed.

Lemma check_container_ready_loop_returned (container_name : string) (timeout now : Z)
    (fuel : nat) :
  forall w,
    result (check_container_ready_loop fuel container_name timeout now w) = Ret tt ->
    exists polls,
      issued (trace (check_container_ready_loop fuel container_name timeout now w))
      = (polls ++ [liveness_args container_name])%list.
Proof.
  induction fuel as [|fuel IH]; intros w; cbn [check_container_ready_loop].
  - intros H. discriminate.
  - pose proof (poll_try_outcome container_name w) as (_ & Hres).
    pose proof (@poll_try_returned container_name w) as Hret.
    unfold bind, try_except_CalledProcessError.
    destruct (poll_try container_name w) as [[r1 w1] t1].
    unfold result, final, trace in Hres, Hret. cbn [fst snd] in Hres, Hret.
    destruct r1 as [b | e |]; [| |contradiction].
    + destruct Hres as (-> & _). specialize (Hret true eq_refl).
      unfold ret, result, trace. cbn [fst snd]. intros _.
      exists []. rewrite app_nil_r. exact Hret.
    + destruct (is_CalledProcessError e).
      * pose proof (poll_except_outcome container_name timeout now e w1) as (_ & Hr2).
        destruct (poll_except container_name timeout now e w1) as [[r2 w2] t2].
        unfold result, final, trace in Hr2. cbn [fst snd] in Hr2.
        destruct r2 as [b | e2 |]; [| |contradiction].
        -- destruct Hr2 as (-> & _). specialize (IH w2).
           destruct (check_container_ready_loop fuel container_name timeout now w2)
             as [[r3 w3] t3].
           unfold result, final, trace in *. cbn [fst snd] in *.
           intros H. destruct (IH H) as [polls Hp].
           exists (issued (t1 ++ t2) ++ polls)%list.
           rewrite issued_app, Hp, app_assoc. reflexivity.
        -- unfold result. cbn [fst snd]. intros H. discriminate.
      * unfold result. cbn [fst snd]. intros H. discriminate.
Qed.

(** What the readiness wait starts: liveness commands and diagnostic reads
    only, and a liveness command last when it returns. *)
Lemma check_container_ready_issued (fuel : nat) (container_name : string)
    (timeout : Z) (w : W) :
  let x := check_container_ready fuel container_name timeout w in
  Forall (fun args => args = liveness_args container_name \/
                      args = ["inspect"; container_name] \/
                      args = ["logs"; container_name]) (issued (trace x)) /\
  (result x = Ret tt ->
   exists polls, issued (trace x) = (polls ++ [liveness_args container_name])%list).
Proof.
  cbn zeta. split.
  - apply kept_check_container_ready
      with (Q := fun t => Forall (fun args => args = liveness_args container_name \/
                                              args = ["inspect"; container_name] \/
                                              args = ["logs"; container_name]) (issued t))
           (allowed := fun args => args = liveness_args container_name \/
                                   args = ["inspect"; container_name] \/
                                   args = ["logs"; container_name]).
    + constructor.
    + intros t1 t2 H1 H2. rewrite issued_app. apply Forall_app. auto.
    + intros ev Hev. destruct ev; try discriminate; constructor.
    + intros args capture kw Hargs. constructor; [exact Hargs | constructor].
    + intros args capture kw Hargs. constructor; [exact Hargs | constructor].
    + auto.
    + auto.
    + auto.
  - unfold check_container_ready, bind, time_time.
    pose proof (@check_container_ready_loop_returned container_name timeout (time_ w) fuel w)
      as H.
    destruct (check_container_ready_loop fuel container_name timeout (time_ w) w)
      as [[r1 w1] t1].
    unfold result, final, trace in *. cbn [fst snd] in *. exact H.
Qed.

Lemma begins_singleton (A : Type) (a : list A) (x : A) :
  begins a [x] -> a = [] \/ a = [x].
Proof.
  intros [rest H]. destruct a as [|y [|z a]]; cbn [app] in H.
  - left. reflexivity.
  - injection H as -> _. right. reflexivity.
  - discriminate.
Qed.

(** A test run, command by command: what [stop_container] starts, then
    the run command, then the polls and diagnostic reads of the readiness
    wait, then the later commands; each part is begun only when the part
    before it is complete. *)
Lemma run_test_issued (fuel : nat) (image_name test_name : string)
    (bootstrap_pip_spec : option string) (test_files : list string)
    (upgrade_from installer_args : string) (w : W) :
  let run := run_test fuel image_name test_name bootstrap_pip_spec test_files
                      upgrade_from installer_args w in
  exists t stopped ran waited later,
    trace run = (trace (stop_container test_name w) ++ t)%list /\
    issued (trace (stop_container test_name w)) = stopped /\
    issued t = (ran ++ waited ++ later)%list /\
    (stopped = [] \/ stopped = [["inspect"; test_name]] \/
     stopped = [["inspect"; test_name]; ["rm"; "-f"; test_name]]) /\
    (ran = [] \/ ran = [run_args image_name test_name bootstrap_pip_spec] /\ stopped <> []) /\
    Forall (fun args => args = liveness_args test_name \/
                        args = ["inspect"; test_name] \/
                        args = ["logs"; test_name]) waited /\
    (waited <> [] -> ran = [run_args image_name test_name bootstrap_pip_spec]) /\
    begins later (later_args test_name test_files upgrade_from installer_args) /\
    (later <> [] -> exists polls, waited = (polls ++ [liveness_args test_name])%list) /\
    (result run = Ret tt ->
     later = later_args test_name test_files upgrade_from installer_args).
Proof.
  cbn zeta. rewrite run_test_run_steps.
  pose proof (issues_later fuel image_name test_name bootstrap_pip_spec test_files
                upgrade_from installer_args) as Hlater.
  remember ([CopyStep; LogsStep]
              ++ (if truthy upgrade_from then [UpgradeStep] else [])
              ++ [InstallStep; DepsStep; FreezeStep; SuiteStep])%list as later_steps
    eqn:Hsteps.
  replace (plan upgrade_from) with (StopStep :: RunStep :: ReadyStep :: later_steps)
    by (rewrite Hsteps; reflexivity).
  clear Hsteps. cbn [run_steps step_action].
  set (act := step_action fuel image_name test_name bootstrap_pip_spec test_files
                          upgrade_from installer_args) in *.
  set (full := later_args test_name test_files upgrade_from installer_args) in *.
  pose proof (stop_container_issued test_name w) as [Hstop Hstopped]. cbn zeta in *.
  destruct (stop_container test_name w) as [[r1 w1] t1] eqn:E1.
  unfold result, trace in Hstop, Hstopped. cbn [fst snd] in Hstop, Hstopped.
  assert (Hnone : begins [] full) by (exists full; reflexivity).
  destruct r1 as [[] | e1 |].
  2:{ erewrite bind_Raise by exact E1. unfold result, trace. cbn [fst snd].
      exists [], (issued t1), [], [], []. rewrite app_nil_r.
      repeat split; auto; try discriminate; intros H; contradiction. }
  2:{ erewrite bind_OutOfFuel by exact E1. unfold result, trace. cbn [fst snd].
      exists [], (issued t1), [], [], []. rewrite app_nil_r.
      repeat split; auto; try discriminate; intros H; contradiction. }
  specialize (Hstopped eq_refl).
  erewrite bind_Ret by exact E1.
  destruct (issues_run_systemd_image image_name test_name bootstrap_pip_spec w1)
    as [Hran Hran_all].
  apply begins_singleton in Hran.
  destruct (run_systemd_image image_name test_name bootstrap_pip_spec w1)
    as [[r2 w2] t2] eqn:E2.
  unfold result, trace in Hran, Hran_all. cbn [fst snd] in Hran, Hran_all.
  destruct r2 as [[] | e2 |].
  2:{ erewrite bind_Raise by exact E2. unfold result, trace. cbn [fst snd].
      exists t2, (issued t1), (issued t2), [], []. rewrite !app_nil_r.
      repeat split; auto; try discriminate; try (intros H; contradiction).
      destruct Hran as [-> | ->]; auto. }
  2:{ erewrite bind_OutOfFuel by exact E2. unfold result, trace. cbn [fst snd].
      exists t2, (issued t1), (issued t2), [], []. rewrite !app_nil_r.
      repeat split; auto; try discriminate; try (intros H; contradiction).
      destruct Hran as [-> | ->]; auto. }
  specialize (Hran_all tt eq_refl). clear Hran.
  erewrite bind_Ret by exact E2.
  pose proof (check_container_ready_issued fuel test_name 60 w2) as [Hwait Hwaited].
  cbn zeta in *.
  destruct (check_container_ready fuel test_name 60 w2) as [[r3 w3] t3] eqn:E3.
  unfold result, trace in Hwait, Hwaited. cbn [fst snd] in Hwait, Hwaited.
  destruct r3 as [[] | e3 |].
  2:{ erewrite bind_Raise by exact E3. unfold result, trace. cbn [fst snd].
      exists (t2 ++ t3)%list, (issued t1), (issued t2), (issued t3), [].
      rewrite issued_app, !app_nil_r.
      repeat split; auto; try discriminate; intros H; contradiction. }
  2:{ erewrite bind_OutOfFuel by exact E3. unfold result, trace. cbn [fst snd].
      exists (t2 ++ t3)%list, (issued t1), (issued t2), (issued t3), [].
      rewrite issued_app, !app_nil_r.
      repeat split; auto; try discriminate; intros H; contradiction. }
  specialize (Hwaited eq_refl).
  erewrite bind_Ret by exact E3.
  destruct (Hlater w3) as [Hbegins Hall].
  destruct (run_steps act later_steps w3) as [[r4 w4] t4].
  unfold result, final, trace in *. cbn [fst snd] in *.
  exists (t2 ++ t3 ++ t4)%list, (issued t1), (issued t2), (issued t3), (issued t4).
  rewrite !issued_app.
  repeat split; auto.
  intros H. apply (Hall tt). exact H.
Qed.


(** C10, as the script has it. A test run has no teardown: whatever
    [run_test] starts after the [stop_container] of its first step is the
    run command, a liveness command, an inspect or logs of the container,
    a copy into it or a command run in it by a shell, so no rm, stop or
    kill, in any form. *)
Theorem run_test_no_teardown (fuel : nat) (image_name test_name : string)
    (bootstrap_pip_spec : option string) (test_files : list string)
    (upgrade_from installer_args : string) (w : W) :
  let run_command :=
    "run" :: "--privileged" :: "--detach" :: ("--name=" ++ test_name) :: "--memory=900m"
      :: (env_flags bootstrap_pip_spec ++ [image_name])%list in
  exists t,
    trace (run_test fuel image_name test_name bootstrap_pip_spec test_files
                    upgrade_from installer_args w)
    = (trace (stop_container test_name w) ++ t)%list /\
    Forall (fun cmd =>
              tl cmd = run_command \/
              tl cmd = ["exec"; "-t"; test_name; "id"] \/
              tl cmd = ["inspect"; test_name] \/
              tl cmd = ["logs"; test_name] \/
              (exists src, tl cmd = ["cp"; src; test_name ++ ":/srv/src"]) \/
              (exists c, tl cmd = ["exec"; "-t"; test_name; "/bin/bash"; "-c"; c]))
           (spawned t) /\
    Forall (fun cmd => teardown cmd = false) (spawned t).
Proof.
  intros run_command.
  destruct (run_test_issued fuel image_name test_name bootstrap_pip_spec test_files
              upgrade_from installer_args w)
    as (t & stopped & ran & waited & later
        & Ht & _ & Hi & _ & Hran & Hwaited & _ & Hbegins & _ & _).
  exists t. split; [exact Ht|].
  assert (Hshape : Forall (fun cmd =>
              tl cmd = run_command \/
              tl cmd = ["exec"; "-t"; test_name; "id"] \/
              tl cmd = ["inspect"; test_name] \/
              tl cmd = ["logs"; test_name] \/
              (exists src, tl cmd = ["cp"; src; test_name ++ ":/srv/src"]) \/
              (exists c, tl cmd = ["exec"; "-t"; test_name; "/bin/bash"; "-c"; c]))
           (spawned t)).
  { set (shape := fun args : list string =>
              args = run_command \/
              args = ["exec"; "-t"; test_name; "id"] \/
              args = ["inspect"; test_name] \/
              args = ["logs"; test_name] \/
              (exists src, args = ["cp"; src; test_name ++ ":/srv/src"]) \/
              (exists c, args = ["exec"; "-t"; test_name; "/bin/bash"; "-c"; c])).
    change (Forall (fun cmd => shape (tl cmd)) (spawned t)).
    apply (proj1 (Forall_map (@tl string) shape (spawned t))).
    change (map (@tl string) (spawned t)) with (issued t). rewrite Hi. unfold shape.
    apply Forall_app. split; [|apply Forall_app; split].
    - destruct Hran as [-> | [-> _]]; repeat constructor.
    - eapply Forall_impl; [|exact Hwaited]. cbv beta.
      intros args [-> | [-> | ->]]; auto.
    - apply Forall_forall. intros args Hin.
      assert (Hin' : In args (later_args test_name test_files upgrade_from installer_args)).
      { destruct Hbegins as [rest <-]. apply in_or_app. left. exact Hin. }
      clear Hin. unfold later_args in Hin'.
      destruct (truthy upgrade_from); cbn [app In] in Hin';
        repeat (destruct Hin' as [<- | Hin'];
                [ first [ right; right; right; left; reflexivity
                        | right; right; right; right; left; eexists; reflexivity
                        | right; right; right; right; right; eexists; reflexivity ] |]);
        contradiction. }
  split; [exact Hshape|].
  eapply Forall_impl; [|exact Hshape]. cbv beta.
  intros [|rt args]; cbn [tl].
  - intros [H | [H | [H | [H | [[src H] | [c H]]]]]]; discriminate H.
  - intros [-> | [-> | [-> | [-> | [[src ->] | [c ->]]]]]]; reflexivity.
Qed.

(** X6. When a test run returns, the last command it has started is the
    test runner's, run in the container by a shell, and its command line
    ends with the test files joined by single spaces: a file named by a
    relative path is looked for under [/srv/src/integration-tests/], one
    named by an absolute path is handed over as it is, the directory
    dropped. *)
Theorem run_test_suite_command (fuel : nat) (image_name test_name : string)
    (bootstrap_pip_spec : option string) (test_files : list string)
    (upgrade_from installer_args : string) (w : W) :
  let run := run_test fuel image_name test_name bootstrap_pip_spec test_files
                      upgrade_from installer_args w in
  let files :=
    join " " (map (fun f => if starts_with_slash f then f
                            else "/srv/src/integration-tests/" ++ f) test_files) in
  let suite :=
    "/opt/tljh/hub/bin/python3 -m pytest --verbose --maxfail=2 --color=yes --durations=10 --capture=no "
      ++ files in
  result run = Ret tt ->
  exists before,
    map (@tl string) (spawned (trace run))
    = (before ++ [["exec"; "-t"; test_name; "/bin/bash"; "-c"; suite]])%list.
Proof.
  intros run files suite Hret.
  destruct (run_test_issued fuel image_name test_name bootstrap_pip_spec test_files
              upgrade_from installer_args w)
    as (t & stopped & ran & waited & later & Ht & Hs & Hi & _ & _ & _ & _ & _ & _ & Hall).
  fold run in Ht, Hall. specialize (Hall Hret).
  change (map (@tl string) (spawned (trace run))) with (issued (trace run)).
  rewrite Ht, issued_app, Hs, Hi, Hall. unfold later_args.
  destruct (truthy upgrade_from); cbn [app].
  - eexists (stopped ++ ran ++ waited ++ [_; _; _; _; _; _; _])%list.
    rewrite <- !app_assoc. reflexivity.
  - eexists (stopped ++ ran ++ waited ++ [_; _; _; _; _; _])%list.
    rewrite <- !app_assoc. reflexivity.
Qed.

End Order.

(** ** Further runs on the simulated hosts *)

(** X2 where the container does not exist: the command exits with code 1. *)
Lemma run_container_command_fails_fresh :
  let argv := ["docker"; "exec"; "-t"; "t1"; "/bin/bash"; "-c"; "true"] in
  run_container_command "t1" "true" (fresh 0)
  = (if 1 =? 0 then Ret tt else Raise (CalledProcessError 1 argv None),
     sim_set (fresh 0) [],
     (trace (container_runtime (fresh 0))
        ++ [EvPrint (PRunning argv check_True); EvSpawn argv false check_True])%list).
Proof.
  apply (@run_container_command_checks_exit_code sim sim_host "t1" "true" "docker"
           (fresh 0) (sim_set (fresh 0) []) 1 (text "Error: container is not running")).
  - reflexivity.
  - reflexivity.
Defined.

(** X3 on the same host. *)
Lemma show_logs_fails_fresh :
  let argv := ["docker"; "exec"; "-t"; "t1"; "/bin/bash"; "-c"; "journalctl --no-pager"] in
  result (show_logs "t1" (fresh 0)) = Raise (CalledProcessError 1 argv None) /\
  final (show_logs "t1" (fresh 0)) = sim_set (fresh 0) [] /\
  spawned (trace (show_logs "t1" (fresh 0))) = [argv].
Proof.
  apply (@show_logs_stops_at_journal_failure sim sim_host "t1" "docker"
           (fresh 0) (sim_set (fresh 0) []) 1 (text "Error: container is not running")).
  - reflexivity.
  - reflexivity.
  - discriminate.
Defined.

(** X4 where the container [x] exists. *)
Lemma stop_container_present_hosting :
  result (stop_container "x" (hosting ["x"] 0))
  = (if 0 =? 0 then Ret tt
     else Raise (CalledProcessError 0 ["docker"; "rm"; "-f"; "x"] (Some []))) /\
  final (stop_container "x" (hosting ["x"] 0))
  = sim_set (sim_set (hosting ["x"] 0) ["x"]) [] /\
  spawned (trace (stop_container "x" (hosting ["x"] 0)))
  = [["docker"; "inspect"; "x"]; ["docker"; "rm"; "-f"; "x"]].
Proof.
  apply (@stop_container_present sim sim_host "x" "docker" "docker" (hosting ["x"] 0)
           (sim_set (hosting ["x"] 0) ["x"]) (sim_set (sim_set (hosting ["x"] 0) ["x"]) [])
           (text "[{}]") [] 0).
  - reflexivity.
  - reflexivity.
  - reflexivity.
  - reflexivity.
Defined.

(** X5 with no build argument given. *)
Lemma build_systemd_image_plain :
  spawned (trace (build_systemd_image "tljh-systemd" "integration-tests" None (fresh 0)))
  = [["docker"; "build"; "-t=" ++ "tljh-systemd"; "integration-tests"]].
Proof.
  apply (@build_systemd_image_no_build_args sim sim_host "tljh-systemd" "integration-tests"
           "docker" None (fresh 0)).
  - reflexivity.
  - left. reflexivity.
Defined.

(** X7 on the host with no runtime. *)
Lemma run_test_without_runtime_bare :
  run_test 30 "tljh-systemd" "t1" (Some "") ["a.py"] "" "" bare
  = (Raise no_runtime, bare, [EvWhich "docker"; EvWhich "podman"]).
Proof.
  apply (@run_test_without_runtime sim sim_host 30 "tljh-systemd" "t1" (Some "") ["a.py"]
           "" "" bare).
  - reflexivity.
  - reflexivity.
Defined.

(** X8 at the first process of a test run, the inspect. *)
Lemma run_test_inspect_announced :
  exists before rt args,
    ["docker"; "inspect"; "t1"] = rt :: args /\ (rt = "docker" \/ rt = "podman") /\
    [EvWhich "docker"; EvPrint (PRunning ["docker"; "inspect"; "t1"] stderr_STDOUT)]
    = (before ++ [EvWhich rt;
                  EvPrint (PRunning ["docker"; "inspect"; "t1"] stderr_STDOUT)])%list.
Proof.
  apply (@run_test_processes_announced sim sim_host 30 "tljh-systemd" "t1" (Some "")
           ["a.py"] "" "" (fresh 0)
           [EvWhich "docker"; EvPrint (PRunning ["docker"; "inspect"; "t1"] stderr_STDOUT)]
           (skipn 3 (trace (run_test 30 "tljh-systemd" "t1" (Some "") ["a.py"] "" ""
                              (fresh 0))))
           ["docker"; "inspect"; "t1"] true stderr_STDOUT).
  vm_compute. reflexivity.
Defined.

(** X11 at the rm of [stop-container]. *)
Lemma main_rm_announced :
  exists before rt args,
    ["docker"; "rm"; "-f"; "x"] = rt :: args /\ (rt = "docker" \/ rt = "podman") /\
    [EvWhich "docker"; EvPrint (PRunning ["docker"; "inspect"; "x"] stderr_STDOUT);
     EvSpawn ["docker"; "inspect"; "x"] true stderr_STDOUT;
     EvWhich "docker"; EvPrint (PRunning ["docker"; "rm"; "-f"; "x"] no_kwargs)]
    = (before ++ [EvWhich rt; EvPrint (PRunning ["docker"; "rm"; "-f"; "x"] no_kwargs)])%list.
Proof.
  apply (@main_processes_announced sim sim_host 30 (StopContainer "x") (stop_container "x")
           (hosting ["x"] 0)
           [EvWhich "docker"; EvPrint (PRunning ["docker"; "inspect"; "x"] stderr_STDOUT);
            EvSpawn ["docker"; "inspect"; "x"] true stderr_STDOUT;
            EvWhich "docker"; EvPrint (PRunning ["docker"; "rm"; "-f"; "x"] no_kwargs)]
           [] ["docker"; "rm"; "-f"; "x"] true no_kwargs).
  - reflexivity.
  - vm_compute. reflexivity.
Defined.

(** X12 where the container [x] is up, with a timeout of zero. *)
Lemma check_container_ready_first_poll_hosting :
  let argv := "docker" :: liveness_args "x" in
  check_container_ready 1 "x" 0 (hosting ["x"] 0)
  = (Ret tt, sim_set (hosting ["x"] 0) ["x"],
     EvTime :: (trace (container_runtime (hosting ["x"] 0))
                  ++ [EvPrint (PRunning argv no_kwargs); EvSpawn argv true no_kwargs;
                      EvPrint (PStr "uid=0(root) gid=0(root) groups=0(root)")])%list).
Proof.
  apply (@check_container_ready_first_poll sim sim_host 0 "x" "docker" 0 (hosting ["x"] 0)
           (sim_set (hosting ["x"] 0) ["x"])
           (text "uid=0(root) gid=0(root) groups=0(root)")
           "uid=0(root) gid=0(root) groups=0(root)").
  - reflexivity.
  - reflexivity.
  - vm_compute. reflexivity.
Defined.

(** X14 on the host where no container answers and no diagnostic read
    succeeds. *)
Lemma failed_poll_goes_round_dead :
  let e (args : list string) :=
    CalledProcessError 1 ("podman" :: args)
      (Some (text "Error: container is not running")) in
  let p := poll_try "x" (0 : Z) in
  let i := container_check_output ["inspect"; "x"] no_kwargs (final p) in
  let l := container_check_output ["logs"; "x"] no_kwargs (final i) in
  let rest := check_container_ready_loop 1 "x" 10 0 (sleep 5 (final l)) in
  check_container_ready_loop 2 "x" 10 0 (0 : Z)
  = (result rest, final rest,
     (trace p ++ EvPrint (PExn (e (liveness_args "x")))
        :: trace i ++ EvPrint (PExn (e ["inspect"; "x"]))
        :: trace l ++ EvPrint (PExn (e ["logs"; "x"]))
        :: EvTime :: EvSleep 5 :: trace rest)%list).
Proof.
  intros e.
  apply (@failed_poll_goes_round Z dead_host 1 "x" 10 0 0
           (e (liveness_args "x")) (e ["inspect"; "x"]) (e ["logs"; "x"])).
  - reflexivity.
  - reflexivity.
  - reflexivity.
  - reflexivity.
  - reflexivity.
  - reflexivity.
  - vm_compute. discriminate.
Defined.

(** The claim of C10 fails where the run command itself fails: on a host
    whose daemon does not answer, the inspect of the first step fails and
    is taken for a missing container, the run command exits with code 1,
    the test run raises, and no container [t1] exists afterwards. *)
Lemma run_test_failed_run_leaves_no_container :
  let run := run_test 30 "tljh-systemd" "t1" (Some "") ["a.py"] "" "" (unreachable []) in
  result run
  = Raise (CalledProcessError 1
             ["docker"; "run"; "--privileged"; "--detach"; "--name=t1"; "--memory=900m";
              "tljh-systemd"]
             (Some (text "Cannot connect to the Docker daemon"))) /\
  spawned (trace run)
  = [["docker"; "inspect"; "t1"];
     ["docker"; "run"; "--privileged"; "--detach"; "--name=t1"; "--memory=900m";
      "tljh-systemd"]] /\
  mem "t1" (containers (final run)) = false.
Proof. vm_compute. repeat split. Qed.

(** X6 with one relative and one absolute test file. *)
Lemma run_test_suite_command_fresh :
  let run := run_test 30 "tljh-systemd" "t1" (Some "") ["a.py"; "/abs/b.py"] "" ""
               (fresh 0) in
  let files :=
    join " " (map (fun f => if starts_with_slash f then f
                            else "/srv/src/integration-tests/" ++ f)
                  ["a.py"; "/abs/b.py"]) in
  let suite :=
    "/opt/tljh/hub/bin/python3 -m pytest --verbose --maxfail=2 --color=yes --durations=10 --capture=no "
      ++ files in
  exists before,
    map (@tl string) (spawned (trace run))
    = (before ++ [["exec"; "-t"; "t1"; "/bin/bash"; "-c"; suite]])%list.
Proof.
  apply (@run_test_suite_command sim sim_host 30 "tljh-systemd" "t1" (Some "")
           ["a.py"; "/abs/b.py"] "" "" (fresh 0)).
  vm_compute. reflexivity.
Defined.
